(** * download_packages.py: clone the packages of collection.json and pin their versions

    A shallow embedding of [src/download_packages.py] and the properties
    of its version resolution, its counters and its exit status.

    Conventions of the embedding.
    - Python [str] is [string]; text is held UTF-8 encoded, so the ASCII
      delimiters the script looks for ('/', '.git', ':' ...) are found
      exactly where Python finds them.  Lengths and slices count bytes,
      and [strip()] removes ASCII white space: both agree with Python
      on ASCII text such as tag names and commit ids.
    - The manifest is what [json.load] returns, a value of [json]; the
      script is dynamically typed, and a method a value does not have
      raises as in Python.
    - The script talks to its surroundings (file system, shell, the
      JSON decoder).  Every such call is answered by an oracle that sees
      the whole history of earlier interactions, and is recorded in a
      trace together with the lines the script prints.  A call is always
      answered: a shell that cannot be started at all is not modelled.
    - A Python exception that nothing catches, and [sys.exit], end the
      computation; they are outcomes of the monad [M].

    Layout: text, manifest values, the monad, [urllib.parse], the
    script, what a trace shows, the scenarios; then the lemmas about
    each block of the script, and the properties C1-C10. *)

From Stdlib Require Import String Ascii List ZArith Bool Lia Arith.
From Stdlib Require Import DecimalString.
From Stdlib Require Import Floats.SpecFloat.
Import ListNotations.
Local Open Scope string_scope.
Local Open Scope list_scope.

Set Implicit Arguments.
Set Warnings "-register-all".

(* ================================================================= *)
(** ** Text *)

Module Text.

Fixpoint contains (c : ascii) (s : string) : bool :=
  match s with
  | EmptyString => false
  | String a s' => Ascii.eqb a c || contains c s'
  end.

Fixpoint forallb (p : ascii -> bool) (s : string) : bool :=
  match s with
  | EmptyString => true
  | String a s' => p a && forallb p s'
  end.

Fixpoint filter (p : ascii -> bool) (s : string) : string :=
  match s with
  | EmptyString => EmptyString
  | String a s' => if p a then String a (filter p s') else filter p s'
  end.

Fixpoint map (f : ascii -> ascii) (s : string) : string :=
  match s with
  | EmptyString => EmptyString
  | String a s' => String (f a) (map f s')
  end.

Fixpoint take (n : nat) (s : string) : string :=
  match n, s with
  | S n', String a s' => String a (take n' s')
  | _, _ => EmptyString
  end.

Fixpoint drop (n : nat) (s : string) : string :=
  match n, s with
  | S n', String _ s' => drop n' s'
  | _, _ => s
  end.

(** [s.lstrip(chars)], [s.rstrip(chars)], [s.strip(chars)] with the
    character set given as a predicate. *)
Fixpoint lstrip (p : ascii -> bool) (s : string) : string :=
  match s with
  | String a s' => if p a then lstrip p s' else s
  | EmptyString => EmptyString
  end.

Fixpoint rstrip (p : ascii -> bool) (s : string) : string :=
  match s with
  | EmptyString => EmptyString
  | String a s' =>
      match rstrip p s' with
      | EmptyString => if p a then EmptyString else String a EmptyString
      | r => String a r
      end
  end.

Definition strip (p : ascii -> bool) (s : string) : string :=
  lstrip p (rstrip p s).

(** [s.find(c, start)]: the index of the first [c] at or after [start],
    [-1] when there is none. *)
Fixpoint find_from (c : ascii) (start : nat) (s : string) : Z :=
  match s with
  | EmptyString => (-1)%Z
  | String a s' =>
      match start with
      | O => if Ascii.eqb a c then 0%Z
             else match find_from c O s' with
                  | Zneg _ => (-1)%Z
                  | i => Z.succ i
                  end
      | S k => match find_from c k s' with
               | Zneg _ => (-1)%Z
               | i => Z.succ i
               end
      end
  end.

Definition find (c : ascii) (s : string) : Z := find_from c 0 s.

(** [s.rfind(c)]: the index of the last [c], [-1] when there is none. *)
Fixpoint rfind (c : ascii) (s : string) : Z :=
  match s with
  | EmptyString => (-1)%Z
  | String a s' =>
      match rfind c s' with
      | Zneg _ => if Ascii.eqb a c then 0%Z else (-1)%Z
      | i => Z.succ i
      end
  end.

(** The slices [s[:i]] and [s[i:]] for a Python index [i]; a negative
    index counts from the end and is clamped at the start. *)
Definition slice_to (s : string) (i : Z) : string :=
  if (i <? 0)%Z
  then take (Z.to_nat (Z.of_nat (String.length s) + i)) s
  else take (Z.to_nat i) s.

Definition slice_from (s : string) (i : Z) : string :=
  if (i <? 0)%Z
  then drop (Z.to_nat (Z.of_nat (String.length s) + i)) s
  else drop (Z.to_nat i) s.

Fixpoint startswith (s pre : string) {struct pre} : bool :=
  match pre with
  | EmptyString => true
  | String a pre' =>
      match s with
      | String b s' => Ascii.eqb a b && startswith s' pre'
      | EmptyString => false
      end
  end.

Definition endswith (s suf : string) : bool :=
  (String.length suf <=? String.length s)%nat
  && String.eqb (drop (String.length s - String.length suf) s) suf.

(** [s.split(c)]: the pieces between the occurrences of [c]. *)
Fixpoint split (c : ascii) (s : string) : list string :=
  match s with
  | EmptyString => [EmptyString]
  | String a s' =>
      if Ascii.eqb a c then EmptyString :: split c s'
      else match split c s' with
           | piece :: pieces => String a piece :: pieces
           | [] => [String a EmptyString]
           end
  end.

(** [s.split(c, 1)[0]] when [c] occurs in [s]: the text before the
    first [c]; all of [s] otherwise. *)
Fixpoint before (c : ascii) (s : string) : string :=
  match s with
  | EmptyString => EmptyString
  | String a s' => if Ascii.eqb a c then EmptyString else String a (before c s')
  end.

(** The longest prefix without a character of [p], and the rest. *)
Fixpoint break (p : ascii -> bool) (s : string) : string * string :=
  match s with
  | EmptyString => (EmptyString, EmptyString)
  | String a s' =>
      if p a then (EmptyString, s)
      else let '(l, r) := break p s' in (String a l, r)
  end.

Definition is_upper (a : ascii) : bool :=
  let n := nat_of_ascii a in (65 <=? n)%nat && (n <=? 90)%nat.
Definition is_lower (a : ascii) : bool :=
  let n := nat_of_ascii a in (97 <=? n)%nat && (n <=? 122)%nat.
Definition is_digit (a : ascii) : bool :=
  let n := nat_of_ascii a in (48 <=? n)%nat && (n <=? 57)%nat.
Definition is_ascii (a : ascii) : bool := (nat_of_ascii a <? 128)%nat.

Definition lower_char (a : ascii) : ascii :=
  if is_upper a then ascii_of_nat (nat_of_ascii a + 32) else a.
Definition lower (s : string) : string := map lower_char s.

(** ASCII white space, what [str.strip()] without argument removes from
    ASCII text. *)
Definition is_space (a : ascii) : bool :=
  let n := nat_of_ascii a in
  ((9 <=? n)%nat && (n <=? 13)%nat)
  || ((28 <=? n)%nat && (n <=? 32)%nat).

Definition of_nat (n : nat) : string :=
  NilEmpty.string_of_uint (Nat.to_uint n).

Fixpoint replicate (n : nat) (s : string) : string :=
  match n with
  | O => EmptyString
  | S n' => s ++ replicate n' s
  end.

End Text.

(* ================================================================= *)
(** ** Values read from the manifest *)

(** What [json.load] hands to the script: [None], [bool], [int], [float],
    [str], [list] and [dict] with string keys.  A [dict] is held as its
    items; the decoder has already resolved repeated keys, and [lookup]
    takes the first item with the key. *)
Inductive json : Type :=
| JNull
| JBool (b : bool)
| JInt (n : Z)
| JFloat (x : spec_float)
| JStr (s : string)
| JArr (items : list json)
| JObj (members : list (string * json)).

Fixpoint lookup (key : string) (members : list (string * json)) : option json :=
  match members with
  | [] => None
  | (k, v) :: rest => if String.eqb k key then Some v else lookup key rest
  end.

(** Python truth value: what [not v] tests. *)
Definition truthy (v : json) : bool :=
  match v with
  | JNull => false
  | JBool b => b
  | JInt n => negb (n =? 0)%Z
  | JFloat (S754_zero _) => false
  | JFloat _ => true
  | JStr s => negb (String.eqb s "")
  | JArr items => match items with [] => false | _ :: _ => true end
  | JObj members => match members with [] => false | _ :: _ => true end
  end.

(* ================================================================= *)
(** ** Outcomes, events and the surroundings of the script *)

Inductive exn : Type :=
  AttributeError | TypeError | KeyError | IndexError | ValueError.

(** How a piece of Python ends: with a value, with an exception that is
    not caught, or in [sys.exit(code)]. *)
Inductive outcome (A : Type) : Type :=
| Ok (a : A)
| Raise (e : exn)
| SysExit (code : Z).
Arguments Ok {A} a.
Arguments Raise {A} e.
Arguments SysExit {A} code.

Definition obind {A B : Type} (o : outcome A) (k : A -> outcome B) : outcome B :=
  match o with
  | Ok a => k a
  | Raise e => Raise e
  | SysExit c => SysExit c
  end.

(** What opening and decoding the manifest gives: the decoded document,
    [json.JSONDecodeError], or any other exception of [open]/[json.load]. *)
Inductive load_result : Type :=
| Loaded (data : json)
| DecodeError (message : string)
| ReadError (message : string).

(** One interaction of the script with its surroundings.  [ERun] is a
    command handed to the shell by [run_command]; with [echo] the output
    of the command is printed line by line while it runs. *)
Inductive event : Type :=
| EMkdir (path : string)
| EExists (path : string) (answer : bool)
| ELoad (path : string) (answer : load_result)
| ERun (command cwd : string) (echo : bool) (returncode : Z) (output : string)
| EPrint (line : string).

Definition trace : Type := list event.

(** The surroundings.  The first three fields are the operating system:
    each answer may depend on everything that happened before.  The
    others are the parts of the Python library that are taken as given:
    [str()] of a value that is not a [str], [str()] of a
    [CalledProcessError], and the two checks of [urllib.parse] that need
    [ipaddress] and [unicodedata]. *)
Class Env : Type := {
  path_exists : trace -> string -> bool;
  load_json : trace -> string -> load_result;
  shell : trace -> list (string * string) -> string -> string -> Z * string;
  str_of : json -> string;
  called_process_error_str : string -> Z -> string;
  bracketed_netloc_ok : string -> bool;
  nfkc_netloc_ok : string -> bool
}.

(** The script's monad: given the history, an outcome and the events
    this computation adds to it. *)
Definition M (A : Type) : Type := trace -> outcome A * trace.

Definition ret {A : Type} (a : A) : M A := fun _ => (Ok a, []).

Definition bind {A B : Type} (m : M A) (k : A -> M B) : M B :=
  fun h =>
    match m h with
    | (Ok a, es) => let '(r, es') := k a (h ++ es) in (r, es ++ es')
    | (Raise e, es) => (Raise e, es)
    | (SysExit c, es) => (SysExit c, es)
    end.

Definition lift {A : Type} (o : outcome A) : M A := fun _ => (o, []).

Definition emit (e : event) : M unit := fun _ => (Ok tt, [e]).

Definition print (line : string) : M unit := emit (EPrint line).

Definition sys_exit {A : Type} (code : Z) : M A := lift (SysExit code).

Definition when (b : bool) (m : M unit) : M unit := if b then m else ret tt.

Declare Scope py_scope.
Delimit Scope py_scope with py.
Notation "x <- m ;; k" := (bind m (fun x => k))
  (at level 61, m at next level, right associativity) : py_scope.
Notation "m ;; k" := (bind m (fun _ => k))
  (at level 61, right associativity) : py_scope.
Local Open Scope py_scope.

(* ================================================================= *)
(** ** [urllib.parse.urlparse], as far as its [path] goes

    The script reads only [urlparse(url).path].  The definitions follow
    [Lib/urllib/parse.py] of CPython 3.11 for a [str] argument with the
    default [scheme=''] and [allow_fragments=True]. *)

Section Program.
Context {env : Env}.

Definition scheme_chars (a : ascii) : bool :=
  Text.is_lower a || Text.is_upper a || Text.is_digit a
  || Ascii.eqb a "+" || Ascii.eqb a "-" || Ascii.eqb a ".".

(** [_WHATWG_C0_CONTROL_OR_SPACE]: the characters 0x00 to 0x20. *)
Definition c0_control_or_space (a : ascii) : bool := (nat_of_ascii a <=? 32)%nat.

(** [_UNSAFE_URL_BYTES_TO_REMOVE]: tab, carriage return, line feed. *)
Definition unsafe_url_byte (a : ascii) : bool :=
  let n := nat_of_ascii a in (n =? 9)%nat || (n =? 13)%nat || (n =? 10)%nat.

Definition uses_params : list string :=
  [""; "ftp"; "hdl"; "prospero"; "http"; "imap"; "https"; "shttp"; "rtsp";
   "rtspu"; "sip"; "sips"; "mms"; "sftp"; "tel"].

(** [_splitnetloc(url, 2)]: the text between the leading [//] and the
    first of '/', '?', '#', and what follows it. *)
Definition _splitnetloc (url : string) : string * string :=
  Text.break (fun a => Ascii.eqb a "/" || Ascii.eqb a "?" || Ascii.eqb a "#")
             (Text.drop 2 url).

(** [_checknetloc]: passes on an empty or all-ASCII netloc; otherwise the
    NFKC check decides. *)
Definition _checknetloc (netloc : string) : bool :=
  String.eqb netloc "" || Text.forallb Text.is_ascii netloc || nfkc_netloc_ok netloc.

(** [urlsplit(url)]: scheme, netloc and path; [ValueError] where CPython
    raises it. *)
Definition urlsplit (url : string) : outcome (string * string * string) :=
  let url := Text.lstrip c0_control_or_space url in
  let url := Text.filter (fun a => negb (unsafe_url_byte a)) url in
  let i := Text.find ":" url in
  let '(scheme, url) :=
    if (0 <? i)%Z
       && match url with
          | String a _ => Text.is_ascii a && (Text.is_lower a || Text.is_upper a)
          | EmptyString => false
          end
       && Text.forallb scheme_chars (Text.slice_to url i)
    then (Text.lower (Text.slice_to url i), Text.slice_from url (i + 1))
    else ("", url) in
  obind
    (if Text.startswith url "//" then
       let '(netloc, url) := _splitnetloc url in
       if (Text.contains "[" netloc && negb (Text.contains "]" netloc))
          || (Text.contains "]" netloc && negb (Text.contains "[" netloc))
       then Raise ValueError
       else if Text.contains "[" netloc && Text.contains "]" netloc
               && negb (bracketed_netloc_ok netloc)
       then Raise ValueError
       else Ok (netloc, url)
     else Ok ("", url))
    (fun '(netloc, url) =>
       let url := if Text.contains "#" url then Text.before "#" url else url in
       let url := if Text.contains "?" url then Text.before "?" url else url in
       if _checknetloc netloc then Ok (scheme, netloc, url) else Raise ValueError).

(** [_splitparams(url)[0]] *)
Definition _splitparams (url : string) : string :=
  if Text.contains "/" url then
    let i := Text.find_from ";" (Z.to_nat (Text.rfind "/" url)) url in
    if (i <? 0)%Z then url else Text.slice_to url i
  else
    let i := Text.find ";" url in
    Text.slice_to url i.

(** [urlparse(url).path] *)
Definition urlparse_path (url : string) : outcome string :=
  obind (urlsplit url) (fun '(scheme, _, url) =>
    if existsb (String.eqb scheme) uses_params && Text.contains ";" url
    then Ok (_splitparams url)
    else Ok url).

(* ================================================================= *)
(** ** The script *)

(** What an f-string puts for [{v}]: a [str] as it is, anything else
    through [str()]. *)
Definition fmt (v : json) : string :=
  match v with
  | JStr s => s
  | _ => str_of v
  end.

(** [d.get(key, default)]; only a [dict] has the method. *)
Definition get (d : json) (key : string) (default : json) : outcome json :=
  match d with
  | JObj members =>
      match lookup key members with
      | Some v => Ok v
      | None => Ok default
      end
  | _ => Raise AttributeError
  end.

(** [v[0]] for a value that passed [if not v]. *)
Definition first_item (v : json) : outcome json :=
  match v with
  | JArr (x :: _) => Ok x
  | JArr [] => Raise IndexError
  | JStr (String a _) => Ok (JStr (String a ""))
  | JStr EmptyString => Raise IndexError
  | JObj _ => Raise KeyError
  | _ => Raise TypeError
  end.

(** [len(v)] *)
Definition len (v : json) : outcome nat :=
  match v with
  | JArr items => Ok (List.length items)
  | JStr s => Ok (String.length s)
  | JObj members => Ok (List.length members)
  | _ => Raise TypeError
  end.

(** The items a [for] loop over [v] visits. *)
Definition iterate (v : json) : outcome (list json) :=
  match v with
  | JArr items => Ok items
  | JStr s => Ok (List.map (fun a => JStr (String a "")) (list_ascii_of_string s))
  | JObj members => Ok (List.map (fun kv => JStr (fst kv)) members)
  | _ => Raise TypeError
  end.

(** What the [stdout] of the object [run_command] hands back is.
    Without [show_output] the object is the result of [subprocess.run]
    (or the [CalledProcessError], which carries the same fields) and
    [stdout] is the captured text.  With [show_output] the object is
    the [Popen] process itself and [stdout] is its pipe, which the echo
    loop has read to the end: not a text. *)
Inductive stream : Type :=
| Captured (text : string)
| Pipe.

(** The object [run_command] hands back, as far as it is read:
    [returncode] and [stdout]. *)
Record completed : Type := { returncode : Z; stdout : stream }.

(** [s.strip()] for what a [stdout] holds: a pipe has no [strip]. *)
Definition strip_of (s : stream) : outcome string :=
  match s with
  | Captured text => Ok (Text.strip Text.is_space text)
  | Pipe => Raise AttributeError
  end.

(** The proxy settings [run_command] puts into the environment of every
    command. *)
Definition proxy_env : list (string * string) :=
  [("https_proxy", "http://127.0.0.1:7890");
   ("http_proxy", "http://127.0.0.1:7890");
   ("all_proxy", "socks5://127.0.0.1:7890")].

(** The shell runs the command and the run is recorded.  With [echo]
    (lines 29-46) the output goes to the terminal line by line and the
    process object is handed back; without (lines 48-57) the output is
    captured. *)
Definition spawn (command cwd : string) (echo : bool) : M completed :=
  fun h =>
    let '(rc, out) := shell h proxy_env command cwd in
    (Ok {| returncode := rc;
           stdout := if echo then Pipe else Captured out |},
     [ERun command cwd echo rc out]).

(** [run_command(command, cwd, check, show_output)].  With [show_output]
    the command goes through [Popen], its output is echoed and nothing is
    checked; otherwise [subprocess.run] raises [CalledProcessError] for a
    nonzero status under [check], which is caught, reported and returned
    (it carries [returncode] and [stdout] too). *)
Definition run_command (command cwd : string) (check show_output : bool)
  : M completed :=
  if show_output then spawn command cwd true
  else
    result <- spawn command cwd false ;;
    if check && negb (returncode result =? 0)%Z then
      print ("Error running command: " ++ command) ;;
      print ("Error: " ++ called_process_error_str command (returncode result)) ;;
      ret result
    else ret result.

Definition get_repo_name_from_url (url : json) : outcome string :=
  match url with
  | JStr url =>
      let url := if Text.endswith url ".git" then Text.slice_to url (-4) else url in
      obind (urlparse_path url) (fun path =>
        let path_parts := Text.split "/" (Text.strip (Ascii.eqb "/") path) in
        Ok (match path_parts with
            | [] => "unknown"
            | _ :: _ => List.last path_parts ""
            end))
  | _ => Raise AttributeError
  end.

(** [Path(output_dir) / repo_name], for a name without '/': an empty
    name and the name [.] leave the directory itself. *)
Definition path_join (dir name : string) : string :=
  if String.eqb name "" || String.eqb name "." then dir
  else dir ++ "/" ++ name.

Definition mkdir (path : string) : M unit := emit (EMkdir path).

Definition exists_ (path : string) : M bool :=
  fun h => let b := path_exists h path in (Ok b, [EExists path b]).

Definition nl : string := String "010"%char "".

(** ['='*60] *)
Definition rule : string := Text.replicate 60 "=".

Definition git_clone (url repo_name : string) : string :=
  "git clone --progress " ++ url ++ " " ++ repo_name.
Definition git_fetch_all : string := "git fetch --all --progress".
Definition git_fetch_tags : string := "git fetch --tags".
Definition git_checkout (ref : string) : string := "git checkout " ++ ref.
Definition git_describe : string := "git describe --tags --exact-match".
Definition git_rev_parse : string := "git rev-parse HEAD".

(** Lines 94-110: update the working copy that is there, or clone it.
    [false] is the [return False] after a failed clone. *)
Definition fetch_or_clone (url : json) (repo_name repo_path output_dir : string)
  : M bool :=
  present <- exists_ repo_path ;;
  if present then
    print ("📁 Repository " ++ repo_name ++ " already exists. Updating...") ;;
    print "🔄 Fetching latest changes..." ;;
    result <- run_command git_fetch_all repo_path false true ;;
    when (negb (returncode result =? 0)%Z)
      (print ("⚠️  Warning: Failed to fetch updates for " ++ repo_name)) ;;
    ret true
  else
    print ("📥 Cloning " ++ repo_name ++ "...") ;;
    result <- run_command (git_clone (fmt url) repo_name) output_dir true true ;;
    if negb (returncode result =? 0)%Z then
      print ("❌ Error: Failed to clone " ++ repo_name) ;;
      ret false
    else
      print ("✅ Successfully cloned " ++ repo_name) ;;
      ret true.

(** Lines 121-138: the checkout attempts.  [false] is the
    [return False] after the last of them failed. *)
Definition checkout_version (version : json) (repo_name repo_path : string)
  : M bool :=
  result <- run_command (git_checkout (fmt version)) repo_path true true ;;
  if negb (returncode result =? 0)%Z then
    print ("❌ Error: Failed to checkout tag " ++ fmt version ++ " for " ++ repo_name) ;;
    print "Trying alternative checkout methods..." ;;
    result <- run_command (git_checkout ("tags/" ++ fmt version)) repo_path true true ;;
    if negb (returncode result =? 0)%Z then
      let v_version := ("v" ++ fmt version)%string in
      print ("Trying with 'v' prefix: " ++ v_version) ;;
      result <- run_command (git_checkout v_version) repo_path true true ;;
      if negb (returncode result =? 0)%Z then
        result <- run_command (git_checkout ("tags/" ++ v_version)) repo_path true true ;;
        if negb (returncode result =? 0)%Z then
          print ("❌ Error: Failed to checkout tag " ++ fmt version ++ " or "
                 ++ v_version ++ " for " ++ repo_name) ;;
          ret false
        else ret true
      else ret true
    else ret true
  else ret true.

(** Lines 140-152: report what is checked out. *)
Definition verify_checkout (repo_name repo_path : string) : M unit :=
  result <- run_command git_describe repo_path false false ;;
  if (returncode result =? 0)%Z then
    current_tag <- lift (strip_of (stdout result)) ;;
    print ("✅ Successfully checked out tag: " ++ current_tag)
  else
    result <- run_command git_rev_parse repo_path false false ;;
    if (returncode result =? 0)%Z then
      stripped <- lift (strip_of (stdout result)) ;;
      let current_commit := Text.slice_to stripped 8 in
      print ("✅ Successfully checked out commit: " ++ current_commit)
    else
      print ("⚠️  Warning: Could not verify checkout for " ++ repo_name).

(** Lines 112-155: fetch the tags, check the version out, report. *)
Definition pin_version (version : json) (repo_name repo_path : string) : M bool :=
  print ("🏷️  Checking out tag: " ++ fmt version) ;;
  print "🔄 Fetching all tags..." ;;
  result <- run_command git_fetch_tags repo_path false true ;;
  when (negb (returncode result =? 0)%Z)
    (print ("⚠️  Warning: Failed to fetch tags for " ++ repo_name)) ;;
  checked_out <- checkout_version version repo_name repo_path ;;
  if checked_out then
    verify_checkout repo_name repo_path ;;
    print ("✅ Package " ++ repo_name ++ " completed successfully!") ;;
    ret true
  else ret false.

Definition clone_and_checkout_package (url version : json) (output_dir : string)
  (current_package total_packages : nat) : M bool :=
  mkdir output_dir ;;
  repo_name <- lift (get_repo_name_from_url url) ;;
  let repo_path := path_join output_dir repo_name in
  print (nl ++ rule) ;;
  print ("Progress: [" ++ Text.of_nat current_package ++ "/"
         ++ Text.of_nat total_packages ++ "]") ;;
  print ("Processing: " ++ repo_name) ;;
  print ("URL: " ++ fmt url) ;;
  print ("Version: " ++ fmt version) ;;
  print rule ;;
  ready <- fetch_or_clone url repo_name repo_path output_dir ;;
  if ready then pin_version version repo_name repo_path
  else ret false.

(** Lines 191-218: the body of the loop of [main] for the [i]-th
    package, from the counters before to the counters after. *)
Definition process_package (i total : nat) (package : json)
  (counters : nat * nat) : M (nat * nat) :=
  let '(successful, failed) := counters in
  url <- lift (get package "url" JNull) ;;
  versions <- lift (get package "versions" (JArr [])) ;;
  if negb (truthy url) then
    print ("⚠️  Warning: No URL found for package " ++ Text.of_nat i) ;;
    ret (successful, S failed)
  else if negb (truthy versions) then
    print ("⚠️  Warning: No versions found for package " ++ Text.of_nat i) ;;
    ret (successful, S failed)
  else
    version_info <- lift (first_item versions) ;;
    version <- lift (get version_info "version" JNull) ;;
    if negb (truthy version) then
      print ("⚠️  Warning: No version found for package " ++ Text.of_nat i) ;;
      ret (successful, S failed)
    else
      done <- clone_and_checkout_package url version "packages" i total ;;
      if done then ret (S successful, failed)
      else ret (successful, S failed).

(** Lines 190-218: [for i, package in enumerate(packages, i)]. *)
Fixpoint process_packages (i total : nat) (packages : list json)
  (counters : nat * nat) : M (nat * nat) :=
  match packages with
  | [] => ret counters
  | package :: rest =>
      counters' <- process_package i total package counters ;;
      process_packages (S i) total rest counters'
  end.

Definition load (path : string) : M load_result :=
  fun h => let r := load_json h path in (Ok r, [ELoad path r]).

(** Lines 220-233: the summary and the way out. *)
Definition summary (total successful failed : nat) : M unit :=
  print (nl ++ rule) ;;
  print "SUMMARY" ;;
  print rule ;;
  print ("Total packages: " ++ Text.of_nat total) ;;
  print ("Successful: " ++ Text.of_nat successful) ;;
  print ("Failed: " ++ Text.of_nat failed) ;;
  print "Packages downloaded to: packages/" ;;
  if (0 <? failed)%nat then
    print (nl ++ "Warning: " ++ Text.of_nat failed ++ " packages failed to process") ;;
    sys_exit 1
  else
    print (nl ++ "All packages processed successfully!").

Definition main : M unit :=
  found <- exists_ "collection.json" ;;
  if negb found then
    print "Error: collection.json not found in current directory" ;;
    sys_exit 1
  else
    loaded <- load "collection.json" ;;
    match loaded with
    | DecodeError e =>
        print ("Error: Invalid JSON in collection.json: " ++ e) ;;
        sys_exit 1
    | ReadError e =>
        print ("Error reading collection.json: " ++ e) ;;
        sys_exit 1
    | Loaded data =>
        packages <- lift (get data "packages" (JArr [])) ;;
        if negb (truthy packages) then
          print "Error: No packages found in collection.json" ;;
          sys_exit 1
        else
          total <- lift (len packages) ;;
          print ("Found " ++ Text.of_nat total ++ " packages in collection.json") ;;
          print "Starting download process..." ;;
          print rule ;;
          items <- lift (iterate packages) ;;
          counters <- process_packages 1 total items (0, 0)%nat ;;
          summary total (fst counters) (snd counters)
    end.

End Program.

(** The exit status of the interpreter: 0 after a normal end, the code
    of [sys.exit], 1 after an exception nothing caught. *)
Definition exit_status {A : Type} (o : outcome A) : Z :=
  match o with
  | Ok _ => 0
  | Raise _ => 1
  | SysExit code => code
  end.

(* ================================================================= *)
(** ** What a trace shows *)

(** The commands of a trace, in the order they were run. *)
Fixpoint commands (es : trace) : list string :=
  match es with
  | [] => []
  | ERun command _ _ _ _ :: rest => command :: commands rest
  | _ :: rest => commands rest
  end.

(** The checkout attempts of a trace: the reference each
    [git checkout] was given and the status it ended with. *)
Fixpoint checkout_attempts (es : trace) : list (string * Z) :=
  match es with
  | [] => []
  | ERun command _ _ rc _ :: rest =>
      if Text.startswith command "git checkout "
      then (Text.drop 13 command, rc) :: checkout_attempts rest
      else checkout_attempts rest
  | _ :: rest => checkout_attempts rest
  end.

(** Some attempt ended with status 0. *)
Definition some_success (attempts : list (string * Z)) : bool :=
  existsb (fun a => (snd a =? 0)%Z) attempts.

(** The four spellings of a version label, in the order of the spec. *)
Definition variants (label : string) : list string :=
  [label; "tags/" ++ label; "v" ++ label; "tags/v" ++ label]%string.

(** [attempts_from refs attempts]: the attempts go through [refs] in
    order, each one made because the one before failed, and they end at
    the first success or when [refs] is used up. *)
Inductive attempts_from : list string -> list (string * Z) -> Prop :=
| attempts_exhausted : attempts_from [] []
| attempts_success ref refs : attempts_from (ref :: refs) [(ref, 0%Z)]
| attempts_failure ref refs rc rest :
    rc <> 0%Z ->
    attempts_from refs rest ->
    attempts_from (ref :: refs) ((ref, rc) :: rest).

(** A command or a line of output: not a look at the file system. *)
Definition run_or_print (e : event) : Prop :=
  match e with
  | ERun _ _ _ _ _ | EPrint _ => True
  | _ => False
  end.

(** The last piece of a path: a text without '/' that ends [path] and
    is preceded by '/' or by nothing. *)
Definition final_segment (path segment : string) : Prop :=
  Text.contains "/" segment = false
  /\ exists front, path = (front ++ segment)%string
       /\ (front = "" \/ exists front', front = (front' ++ "/")%string).

(** Every entry of the list is processed and counted successful, each
    after the ones before it. *)
Fixpoint all_succeed {env : Env} (i total : nat) (packages : list json)
  (h : trace) : Prop :=
  match packages with
  | [] => True
  | package :: rest =>
      exists es,
        process_package i total package (0, 0)%nat h = (Ok (1, 0)%nat, es)
        /\ all_succeed (S i) total rest (h ++ es)
  end.

(** The lines [clone_and_checkout_package] prints before it looks for
    the working copy. *)
Definition banner {env : Env} (url version : json) (repo_name : string)
  (i total : nat) : trace :=
  [EPrint (nl ++ rule);
   EPrint ("Progress: [" ++ Text.of_nat i ++ "/" ++ Text.of_nat total ++ "]");
   EPrint ("Processing: " ++ repo_name);
   EPrint ("URL: " ++ fmt url);
   EPrint ("Version: " ++ fmt version);
   EPrint rule].

(** The events of an update of a working copy that is there: the fetch
    with its status, and the warning when the status is not 0. *)
Definition updated (repo_name repo_path : string) (rc : Z) (out : string)
  : trace :=
  [EExists repo_path true;
   EPrint ("📁 Repository " ++ repo_name ++ " already exists. Updating...");
   EPrint "🔄 Fetching latest changes...";
   ERun git_fetch_all repo_path true rc out]
  ++ (if (rc =? 0)%Z then []
      else [EPrint ("⚠️  Warning: Failed to fetch updates for " ++ repo_name)]).

(** The events of a clone. *)
Definition cloned {env : Env} (url : json) (repo_name repo_path output_dir : string)
  (rc : Z) (out : string) : trace :=
  [EExists repo_path false;
   EPrint ("📥 Cloning " ++ repo_name ++ "...");
   ERun (git_clone (fmt url) repo_name) output_dir true rc out;
   EPrint (if (rc =? 0)%Z then "✅ Successfully cloned " ++ repo_name
           else "❌ Error: Failed to clone " ++ repo_name)].

(** The history at the moment [clone_and_checkout_package] looks for
    the working copy (line 95): the output directory has been made and
    the banner printed. *)
Definition at_lookup {env : Env} (url version : json)
  (output_dir repo_name : string) (i total : nat) (h : trace) : trace :=
  h ++ EMkdir output_dir :: banner url version repo_name i total.

(** Whether the working copy is there at that moment: the answer of
    the file system, whatever the script makes of it. *)
Definition copy_is_there {env : Env} (url version : json)
  (output_dir repo_name : string) (i total : nat) (h : trace) : bool :=
  path_exists (at_lookup url version output_dir repo_name i total h)
    (path_join output_dir repo_name).



(** The events of the tags-only fetch: the announcement, the fetch with
    its status, and the warning when the status is not 0. *)
Definition tags_fetched {env : Env} (version : json) (repo_name repo_path : string)
  (rc : Z) (out : string) : trace :=
  [EPrint ("🏷️  Checking out tag: " ++ fmt version);
   EPrint "🔄 Fetching all tags...";
   ERun git_fetch_tags repo_path true rc out]
  ++ (if (rc =? 0)%Z then []
      else [EPrint ("⚠️  Warning: Failed to fetch tags for " ++ repo_name)]).

(** The three ways the verification can go: the exact tag is found; it
    is not but the commit is; neither is.  Each ends in one line of
    report. *)
Inductive verification_report (repo_name repo_path : string) : trace -> Prop :=
| report_tag out :
    verification_report repo_name repo_path
      [ERun git_describe repo_path false 0 out;
       EPrint ("✅ Successfully checked out tag: "
               ++ Text.strip Text.is_space out)]
| report_commit rc out out' :
    rc <> 0%Z ->
    verification_report repo_name repo_path
      [ERun git_describe repo_path false rc out;
       ERun git_rev_parse repo_path false 0 out';
       EPrint ("✅ Successfully checked out commit: "
               ++ Text.slice_to (Text.strip Text.is_space out') 8)]
| report_unverified rc out rc' out' :
    rc <> 0%Z -> rc' <> 0%Z ->
    verification_report repo_name repo_path
      [ERun git_describe repo_path false rc out;
       ERun git_rev_parse repo_path false rc' out';
       EPrint ("⚠️  Warning: Could not verify checkout for " ++ repo_name)].

(** The pieces put together again, [c] between them. *)
Fixpoint join (c : ascii) (pieces : list string) : string :=
  match pieces with
  | [] => ""
  | [piece] => piece
  | piece :: rest => piece ++ String c (join c rest)
  end.

(** [url] without one trailing [.git]. *)
Definition without_dot_git (url : string) : string :=
  if Text.endswith url ".git" then Text.slice_to url (-4) else url.

(** The value of [d.get(key, default)] for the dict with these items. *)
Definition field (members : list (string * json)) (key : string) (default : json)
  : json :=
  match lookup key members with
  | Some v => v
  | None => default
  end.

(** What a manifest value holds under a key: nothing when it is not
    an object. *)
Definition held (v : json) (key : string) : option json :=
  match v with
  | JObj members => lookup key members
  | _ => None
  end.

(** A value that is missing or empty. *)
Definition lacking (v : option json) : Prop :=
  match v with
  | Some v => truthy v = false
  | None => True
  end.

(** An entry as the specification describes the incomplete ones,
    whatever kind of value the entry and its parts are: its url is
    missing or empty, or its versions are, or its first version
    descriptor holds no version value. *)
Definition incomplete (package : json) : Prop :=
  lacking (held package "url")
  \/ lacking (held package "versions")
  \/ exists descriptor more,
       held package "versions" = Some (JArr (descriptor :: more))
       /\ lacking (held descriptor "version").

(** What [main] has done when the loop starts. *)
Definition loop_start (h : trace) (data : json) (total : nat) : trace :=
  h ++ [EExists "collection.json" true;
        ELoad "collection.json" (Loaded data);
        EPrint ("Found " ++ Text.of_nat total ++ " packages in collection.json");
        EPrint "Starting download process...";
        EPrint rule].

(** The manifest is there, decodes to [data], and its [packages] is the
    non-empty list [items]. *)
Definition manifest_lists {env : Env} (h : trace) (data : json)
  (items : list json) : Prop :=
  path_exists h "collection.json" = true
  /\ load_json (h ++ [EExists "collection.json" true]) "collection.json"
     = Loaded data
  /\ get data "packages" (JArr []) = Ok (JArr items)
  /\ items <> [].

Definition manifest_missing {env : Env} (h : trace) : Prop :=
  path_exists h "collection.json" = false.

(** The manifest is there but [json.load] raises: invalid JSON, or any
    other error of reading it. *)
Definition manifest_unreadable {env : Env} (h : trace) : Prop :=
  path_exists h "collection.json" = true
  /\ exists message,
       load_json (h ++ [EExists "collection.json" true]) "collection.json"
       = DecodeError message
       \/ load_json (h ++ [EExists "collection.json" true]) "collection.json"
          = ReadError message.

(** The manifest decodes, and its [packages] is missing or empty. *)
Definition packages_empty {env : Env} (h : trace) : Prop :=
  path_exists h "collection.json" = true
  /\ exists data packages,
       load_json (h ++ [EExists "collection.json" true]) "collection.json"
       = Loaded data
       /\ get data "packages" (JArr []) = Ok packages
       /\ truthy packages = false.

(** The loop ran to its end and counted at least one entry failed. *)
Definition counted_failed {env : Env} (h : trace) : Prop :=
  exists data items successful failed es,
    manifest_lists h data items
    /\ process_packages 1 (List.length items) items (0, 0)%nat
         (loop_start h data (List.length items))
       = (Ok (successful, failed), es)
    /\ (0 < failed)%nat.

(** The lines of the summary, the last one by whether an entry failed. *)
Definition summary_lines (total successful failed : nat) : trace :=
  [EPrint (nl ++ rule);
   EPrint "SUMMARY";
   EPrint rule;
   EPrint ("Total packages: " ++ Text.of_nat total);
   EPrint ("Successful: " ++ Text.of_nat successful);
   EPrint ("Failed: " ++ Text.of_nat failed);
   EPrint "Packages downloaded to: packages/";
   EPrint (if (0 <? failed)%nat
           then nl ++ "Warning: " ++ Text.of_nat failed
                ++ " packages failed to process"
           else nl ++ "All packages processed successfully!")].

(* ================================================================= *)
(** ** Scenarios *)

Module Scenario.

(** [tags/<t>] and [<t>] both name the tag [t]. *)
Definition names_tag (tags : list string) (ref : string) : bool :=
  existsb (fun t => String.eqb ref t || String.eqb ref ("tags/" ++ t)) tags.

(** A version-control tool in which [git checkout <ref>] succeeds exactly
    when [ref] names a tag of the registry.  Clone succeeds; the two
    fetches end with [fetch_status]; the verification queries answer
    [describe] and [rev_parse]. *)
Definition git (tags : list string) (fetch_status : Z)
  (describe rev_parse : Z * string) (command : string) : Z * string :=
  if Text.startswith command "git checkout " then
    if names_tag tags (Text.drop 13 command) then (0%Z, "") else (1%Z, "")
  else if Text.startswith command "git fetch " then (fetch_status, "")
  else if String.eqb command git_describe then describe
  else if String.eqb command git_rev_parse then rev_parse
  else (0%Z, "").

Definition status_text (rc : Z) : string :=
  NilEmpty.string_of_int (Z.to_int rc).

(** The surroundings of a scenario: the manifest file is there and
    holds [manifest]; every working copy is there or not according to
    [copy_present]. *)
Definition world (manifest : load_result) (copy_present : bool)
  (run : string -> Z * string) : Env :=
  {| path_exists := fun _ path =>
       if String.eqb path "collection.json" then true else copy_present;
     load_json := fun _ _ => manifest;
     shell := fun _ _ command _ => run command;
     str_of := fun v =>
       match v with
       | JNull => "None"
       | JBool true => "True"
       | JBool false => "False"
       | JInt n => status_text n
       | _ => "<value>"
       end;
     called_process_error_str := fun command rc =>
       ("Command '" ++ command ++ "' returned non-zero exit status "
        ++ status_text rc ++ ".")%string;
     bracketed_netloc_ok := fun _ => true;
     nfkc_netloc_ok := fun _ => true |}.

Definition package (url version : string) : json :=
  JObj [("url", JStr url); ("versions", JArr [JObj [("version", JStr version)]])].

(** [{"packages":[{"url":"https://example.com/org/foo.git",
                   "versions":[{"version":"1.2.0"}]}]}] *)
Definition foo_manifest : json :=
  JObj [("packages", JArr [package "https://example.com/org/foo.git" "1.2.0"])].

(** The registry of the scenario: tag [v1.2.0] is there, [1.2.0] is not. *)
Definition foo_world (copy_present : bool) (fetch_status : Z)
  (describe rev_parse : Z * string) : Env :=
  world (Loaded foo_manifest) copy_present
        (git ["v1.2.0"] fetch_status describe rev_parse).

(** A manifest of the documented shape whose url has an unbalanced
    bracket where the host stands. *)
Definition bracket_manifest : json :=
  JObj [("packages", JArr [package "http://[" "1.2.0"])].

Definition bracket_world : Env :=
  world (Loaded bracket_manifest) false (git ["1.2.0"] 0 (0%Z, "1.2.0") (0%Z, "")).

Definition foo_url : json := JStr "https://example.com/org/foo.git".
Definition foo_version : json := JStr "1.2.0".

(** The working copy of [foo] is there, both fetches fail, the exact
    tag cannot be described, the commit can. *)
Definition stale_world : Env :=
  foo_world true 1 (128%Z, "") (0%Z, "0123456789abcdef0123456789abcdef01234567").

(** An entry without a url. *)
Definition nameless_package : list (string * json) :=
  [("versions", JArr [JObj [("version", JStr "1.2.0")]])].

End Scenario.

(* ================================================================= *)
(** ** More of what a trace shows, and more surroundings *)

(** Where a command runs and whether its output is echoed: the clone in
    the output directory, every other command in the working copy; the
    two verification queries silently, every other command echoed. *)
Definition placed (output_dir repo_path : string) (e : event) : Prop :=
  match e with
  | ERun command cwd echo _ _ =>
      (if Text.startswith command "git clone " then cwd = output_dir
       else cwd = repo_path)
      /\ echo = negb (String.eqb command git_describe
                      || String.eqb command git_rev_parse)
  | _ => True
  end.

(** Not a [print] of a line that starts with [Error], as both lines
    of the handler of [run_command] do.  [EPrint] is a [print] of the
    script's own text; what a command writes, and the echo loop of
    lines 42-43 copies to the terminal, is part of its [ERun] and is
    not looked at here. *)
Definition no_handler_line (e : event) : Prop :=
  match e with
  | EPrint line => Text.startswith line "Error" = false
  | _ => True
  end.

(** Nothing of the file system is touched and no command is run. *)
Definition untouched (es : trace) : Prop :=
  commands es = [] /\ forall path, ~ In (EMkdir path) es.

Module Situation.

(** No file at all; every command fails. *)
Definition bare : Env :=
  {| path_exists := fun _ _ => false;
     load_json := fun _ _ => ReadError "";
     shell := fun _ _ _ _ => (128%Z, "");
     str_of := fun _ => "";
     called_process_error_str := fun command rc =>
       ("Command '" ++ command ++ "' returned non-zero exit status "
        ++ Scenario.status_text rc ++ ".")%string;
     bracketed_netloc_ok := fun _ => true;
     nfkc_netloc_ok := fun _ => true |}.

(** The manifest is there and every command is refused: no working
    copy, the clone fails. *)
Definition offline (manifest : load_result) : Env :=
  Scenario.world manifest false (fun _ => (128%Z, "")).

(** The exact tag of the working copy is not known, its commit is. *)
Definition detached : Env :=
  Scenario.world (Loaded Scenario.foo_manifest) true
    (Scenario.git ["v1.2.0"] 0 (128%Z, "")
       (0%Z, "0123456789abcdef0123456789abcdef01234567")).

Definition truncated_manifest : load_result :=
  DecodeError "Expecting value: line 1 column 1 (char 0)".

(** [{}]: no [packages] key. *)
Definition keyless_manifest : load_result := Loaded (JObj []).

(** [{"packages": "foo"}]: a text where the list should be. *)
Definition text_manifest : load_result :=
  Loaded (JObj [("packages", JStr "foo")]).

(** An entry with a second version descriptor and a key of its own. *)
Definition two_versions : list (string * json) :=
  [("name", JStr "foo");
   ("url", Scenario.foo_url);
   ("versions", JArr [JObj [("version", JStr "1.2.0")];
                      JObj [("version", JStr "2.0.0")]])].

Definition one_version : list (string * json) :=
  [("url", Scenario.foo_url);
   ("versions", JArr [JObj [("version", JStr "1.2.0")]])].

(** [{"url": ..., "versions": [null]}]: the first version descriptor is
    [null]. *)
Definition null_descriptor : json :=
  JObj [("url", Scenario.foo_url); ("versions", JArr [JNull])].

(** A manifest whose first entry has a [null] descriptor and whose
    second entry is complete. *)
Definition null_descriptor_manifest : load_result :=
  Loaded (JObj [("packages",
                 JArr [null_descriptor;
                       Scenario.package "https://example.com/org/foo.git"
                         "1.2.0"])]).

End Situation.

(* ================================================================= *)
(** ** The embedding at work *)

Section Examples.
Context {env : Env}.

Example repo_name_https :
  get_repo_name_from_url (JStr "https://example.com/org/foo.git") = Ok "foo".
Proof. reflexivity. Qed.

Example repo_name_scp_like :
  get_repo_name_from_url (JStr "git@github.com:org/foo.git") = Ok "foo".
Proof. reflexivity. Qed.

Example repo_name_trailing_slash :
  get_repo_name_from_url (JStr "https://example.com/org/foo/") = Ok "foo".
Proof. reflexivity. Qed.

Example repo_name_params_and_query :
  get_repo_name_from_url (JStr "https://x.com/a/b;p?q#f") = Ok "b".
Proof. reflexivity. Qed.

Example repo_name_no_path :
  get_repo_name_from_url (JStr "https://example.com") = Ok "".
Proof. reflexivity. Qed.

Example repo_name_of_a_number :
  get_repo_name_from_url (JInt 5) = Raise AttributeError.
Proof. reflexivity. Qed.

Example working_copy_of_no_name : path_join "packages" "" = "packages".
Proof. reflexivity. Qed.

Example attempts_in_order :
  attempts_from (variants "1.2.0")
    [("1.2.0", 1%Z); ("tags/1.2.0", 128%Z); ("v1.2.0", 0%Z)].
Proof.
  apply attempts_failure; [discriminate|].
  apply attempts_failure; [discriminate|].
  apply attempts_success.
Qed.

Example attempts_out_of_order :
  ~ attempts_from (variants "1.2.0") [("1.2.0", 1%Z); ("v1.2.0", 0%Z)].
Proof.
  intros H. inversion H as [| | ? ? ? ? _ H']. inversion H'.
Qed.

(** A url that ends in [/..] gives the name [..]: the working copy is
    then looked for above the output directory. *)
Example repo_name_dot_dot :
  get_repo_name_from_url (JStr "https://example.com/org/..") = Ok ".."
  /\ path_join "packages" ".." = "packages/..".
Proof. split; reflexivity. Qed.

End Examples.

(** The whole run of the scenario of the specification, working copy
    absent, every command but the first two checkouts succeeding. *)
Example run_of_foo :
  commands
    (snd (@main (Scenario.foo_world false 0 (0%Z, "v1.2.0") (0%Z, "")) []))
  = ["git clone --progress https://example.com/org/foo.git foo";
     "git fetch --tags";
     "git checkout 1.2.0";
     "git checkout tags/1.2.0";
     "git checkout v1.2.0";
     "git describe --tags --exact-match"].
Proof. vm_compute. reflexivity. Qed.

(* ================================================================= *)
(** ** Running the script symbolically *)

Arguments get_repo_name_from_url : simpl never.
Arguments path_join : simpl never.
Arguments fmt : simpl never.
Arguments Text.of_nat : simpl never.
Arguments Text.strip : simpl never.
Arguments Text.slice_to : simpl never.
Arguments rule : simpl never.
Arguments nl : simpl never.
Arguments fetch_or_clone : simpl never.
Arguments checkout_version : simpl never.
Arguments verify_checkout : simpl never.
Arguments pin_version : simpl never.
Arguments clone_and_checkout_package : simpl never.
Arguments process_package : simpl never.
Arguments banner : simpl never.
Arguments updated : simpl never.
Arguments cloned : simpl never.
Arguments tags_fetched : simpl never.
Arguments summary_lines : simpl never.
Arguments summary : simpl never.
Arguments loop_start : simpl never.

(** Name the next answer of the surroundings and split on it. *)
Ltac answer :=
  match goal with
  | |- context [shell ?h ?e ?c ?d] =>
      let rc := fresh "rc" in
      let out := fresh "out" in
      destruct (shell h e c d) as [rc out]
  | |- context [path_exists ?h ?p] => destruct (path_exists h p)
  | |- context [(?rc =? 0)%Z] => destruct (Z.eqb_spec rc 0); [subst rc|]
  end.

(** Open one function of the script down to the calls of the
    surroundings. *)
Ltac open_monad :=
  unfold run_command, spawn, exists_, mkdir, load, sys_exit, print, emit,
    when, lift, ret, bind.

Ltac run := open_monad; cbn; repeat (answer; cbn).

(** Put the history of the next call into the form [h ++ events]. *)
Ltac flatten := rewrite <- ?app_assoc; cbn [app].

Lemma commands_app (es1 es2 : trace) :
  commands (es1 ++ es2) = commands es1 ++ commands es2.
Proof.
  induction es1 as [|[] es1 IH]; cbn; rewrite ?IH; reflexivity.
Qed.

Lemma checkout_attempts_app (es1 es2 : trace) :
  checkout_attempts (es1 ++ es2) = checkout_attempts es1 ++ checkout_attempts es2.
Proof.
  induction es1 as [|[] es1 IH]; cbn [checkout_attempts app];
    rewrite ?IH; try reflexivity.
  destruct (Text.startswith command "git checkout "); reflexivity.
Qed.

Lemma eqb_zero_false (rc : Z) : rc <> 0%Z -> (rc =? 0)%Z = false.
Proof. intros H. destruct (Z.eqb_spec rc 0); congruence. Qed.

Section Phases.
Context {env : Env}.

(** Lines 140-152 never fail and never decide anything: they run one
    or two queries and print one line. *)
Lemma verify_checkout_report (repo_name repo_path : string) (h : trace) :
  exists es,
    verify_checkout repo_name repo_path h = (Ok tt, es)
    /\ verification_report repo_name repo_path es.
Proof.
  unfold verify_checkout. run; eexists; (split; [reflexivity|]).
  - apply report_tag.
  - apply report_commit; assumption.
  - apply report_unverified; assumption.
Qed.

Lemma verification_report_quiet (repo_name repo_path : string) (es : trace) :
  verification_report repo_name repo_path es ->
  checkout_attempts es = []
  /\ ~ In (EPrint "SUMMARY") es
  /\ Forall run_or_print es
  /\ (forall c, In c (commands es) -> c = git_describe \/ c = git_rev_parse).
Proof.
  intros [out | rc out out' Hrc | rc out rc' out' Hrc Hrc']; cbn;
    repeat split; try (intuition discriminate); try (repeat constructor; fail);
    intuition auto.
Qed.

(** Lines 121-138: the attempts go through the variants in order and
    the result says whether one of them succeeded. *)
Lemma checkout_version_attempts (version : json) (repo_name repo_path : string)
  (h : trace) :
  exists b es,
    checkout_version version repo_name repo_path h = (Ok b, es)
    /\ attempts_from (variants (fmt version)) (checkout_attempts es)
    /\ b = some_success (checkout_attempts es)
    /\ commands es = List.map (fun a => git_checkout (fst a)) (checkout_attempts es)
    /\ ~ In (EPrint "SUMMARY") es
    /\ Forall run_or_print es.
Proof.
  unfold checkout_version. run; do 2 eexists; (split; [reflexivity|]); cbn.
  all: repeat split.
  all: try (repeat constructor; fail).
  all: try (intuition discriminate).
  all: try (rewrite ?eqb_zero_false by assumption; reflexivity).
  all: repeat (first [ apply attempts_success
                     | apply attempts_failure; [assumption|]
                     | apply attempts_exhausted ]).
Qed.

(** Lines 94-110: an update, which always goes on, or a clone, which
    goes on when its status is 0. *)
Lemma fetch_or_clone_cases (url : json) (repo_name repo_path output_dir : string)
  (h : trace) :
  exists rc out,
    fetch_or_clone url repo_name repo_path output_dir h
    = (Ok true, updated repo_name repo_path rc out)
    \/ fetch_or_clone url repo_name repo_path output_dir h
       = (Ok (rc =? 0)%Z, cloned url repo_name repo_path output_dir rc out).
Proof.
  unfold fetch_or_clone, updated, cloned. run.
  - exists 0%Z, out. left. reflexivity.
  - exists rc, out. left. rewrite eqb_zero_false by assumption. reflexivity.
  - exists 0%Z, out. right. reflexivity.
  - exists rc, out. right. rewrite eqb_zero_false by assumption. reflexivity.
Qed.

(** Lines 112-155: the tags-only fetch, then the checkout attempts,
    whose result is the result; after a success the verification and
    the closing line. *)
Lemma pin_version_cases (version : json) (repo_name repo_path : string)
  (h : trace) :
  exists rc out b es_co tail,
    checkout_version version repo_name repo_path
      (h ++ tags_fetched version repo_name repo_path rc out) = (Ok b, es_co)
    /\ pin_version version repo_name repo_path h
       = (Ok b, tags_fetched version repo_name repo_path rc out ++ es_co ++ tail)
    /\ ((b = true
         /\ exists report,
              verification_report repo_name repo_path report
              /\ tail = report
                   ++ [EPrint ("✅ Package " ++ repo_name
                               ++ " completed successfully!")])
        \/ (b = false /\ tail = [])).
Proof.
  unfold pin_version, tags_fetched. open_monad. cbn.
  destruct (shell _ _ _ _) as [rc out]. exists rc, out. cbn.
  destruct (Z.eqb_spec rc 0) as [->|Hrc]; cbn; flatten.
  all: match goal with
       | |- context [checkout_version ?v ?n ?p ?hh] =>
           destruct (checkout_version_attempts v n p hh)
             as (b & es_co & Hco & _)
       end.
  all: rewrite Hco; exists b, es_co; destruct b; cbn.
  all: try (exists []; rewrite ?app_nil_r; split; [reflexivity|];
            split; [reflexivity|]; right; split; reflexivity).
  all: match goal with
       | |- context [verify_checkout ?n ?p ?hh] =>
           destruct (verify_checkout_report n p hh) as (report & Hv & Hrep)
       end.
  all: rewrite Hv; cbn; eexists; split; [reflexivity|]; split;
    [reflexivity|]; left; split; [reflexivity|];
    exists report; split; [exact Hrep | reflexivity].
Qed.

(** The url is parsed with [ValueError] as the only way to fail; a url
    that is not a [str] has no [endswith]. *)
Lemma get_repo_name_from_url_ends (url : json) :
  (exists repo_name, get_repo_name_from_url url = Ok repo_name)
  \/ (exists e, get_repo_name_from_url url = Raise e).
Proof.
  unfold get_repo_name_from_url.
  destruct url; try (right; eexists; reflexivity).
  unfold urlparse_path.
  destruct (urlsplit _) as [[[scheme netloc] path] | e | c] eqn:Hsplit; cbn.
  - destruct (_ && _); left; eexists; reflexivity.
  - right; eexists; reflexivity.
  - exfalso. revert Hsplit. unfold urlsplit.
    destruct (_ && _ && _); cbn;
      repeat match goal with
             | |- context [if ?b then _ else _] => destruct b; cbn
             | |- context [let '(_, _) := ?p in _] => destruct p; cbn
             end; discriminate.
Qed.

(** [clone_and_checkout_package] as a whole: it stops at a url that
    cannot be parsed; or it updates and goes on to [pin_version]; or it
    clones and, when the clone succeeded, goes on to [pin_version]. *)
Lemma clone_and_checkout_package_cases (url version : json) (output_dir : string)
  (i total : nat) (h : trace) :
  (exists e,
     get_repo_name_from_url url = Raise e
     /\ clone_and_checkout_package url version output_dir i total h
        = (Raise e, [EMkdir output_dir]))
  \/ exists repo_name rc out,
       get_repo_name_from_url url = Ok repo_name
       /\ let repo_path := path_join output_dir repo_name in
          let pre := EMkdir output_dir :: banner url version repo_name i total in
          (exists r post,
             pin_version version repo_name repo_path
               (h ++ pre ++ updated repo_name repo_path rc out) = (r, post)
             /\ clone_and_checkout_package url version output_dir i total h
                = (r, pre ++ updated repo_name repo_path rc out ++ post))
          \/ (rc <> 0%Z
              /\ clone_and_checkout_package url version output_dir i total h
                 = (Ok false,
                    pre ++ cloned url repo_name repo_path output_dir rc out))
          \/ (exists r post,
                pin_version version repo_name repo_path
                  (h ++ pre ++ cloned url repo_name repo_path output_dir 0 out)
                = (r, post)
                /\ clone_and_checkout_package url version output_dir i total h
                   = (r, pre ++ cloned url repo_name repo_path output_dir 0 out
                         ++ post)).
Proof.
  unfold clone_and_checkout_package.
  destruct (get_repo_name_from_url_ends url) as [[repo_name Hname] | [e Hname]];
    [right | left; exists e; split; [exact Hname|]];
    unfold bind at 1; unfold mkdir, emit; unfold bind at 1; unfold lift;
    rewrite Hname; [|reflexivity].
  open_monad. unfold banner. cbn. flatten.
  match goal with
  | |- context [fetch_or_clone ?u ?n ?p ?o ?hh] =>
      destruct (fetch_or_clone_cases u n p o hh) as (rc & out & [Hf | Hf])
  end; rewrite Hf; exists repo_name, rc, out; (split; [reflexivity|]); cbn;
    flatten.
  - left.
    match goal with
    | |- context [pin_version ?v ?n ?p ?hh] =>
        destruct (pin_version v n p hh) as [r post]
    end.
    exists r, post. split; reflexivity.
  - right. destruct (Z.eqb_spec rc 0) as [->|Hrc]; cbn; flatten.
    + right.
      match goal with
      | |- context [pin_version ?v ?n ?p ?hh] =>
          destruct (pin_version v n p hh) as [r post]
      end.
      exists r, post. split; reflexivity.
    + left. split; [exact Hrc|]. rewrite ?app_nil_r. reflexivity.
Qed.

(** Lines 94-110 by the answer of the file system: a working copy
    that is there is updated and never cloned. *)
Lemma fetch_or_clone_present (url : json)
  (repo_name repo_path output_dir : string) (h : trace) :
  path_exists h repo_path = true ->
  exists rc out,
    fetch_or_clone url repo_name repo_path output_dir h
    = (Ok true, updated repo_name repo_path rc out).
Proof.
  intros Hyes. unfold fetch_or_clone, updated. open_monad. cbn.
  rewrite Hyes. cbn. destruct (shell _ _ _ _) as [rc out]. cbn.
  exists rc, out. destruct (rc =? 0)%Z; reflexivity.
Qed.


(** [clone_and_checkout_package] by the answers of the surroundings.
    The working copy is there: it is updated and the version is
    resolved. *)
Lemma clone_and_checkout_package_present (url version : json)
  (output_dir : string) (i total : nat) (h : trace) (repo_name : string) :
  get_repo_name_from_url url = Ok repo_name ->
  copy_is_there url version output_dir repo_name i total h = true ->
  let repo_path := path_join output_dir repo_name in
  let pre := EMkdir output_dir :: banner url version repo_name i total in
  exists rc out r post,
    pin_version version repo_name repo_path
      (h ++ pre ++ updated repo_name repo_path rc out) = (r, post)
    /\ clone_and_checkout_package url version output_dir i total h
       = (r, pre ++ updated repo_name repo_path rc out ++ post).
Proof.
  intros Hname Hthere. unfold clone_and_checkout_package.
  unfold bind at 1; unfold mkdir, emit; unfold bind at 1; unfold lift;
    rewrite Hname.
  open_monad. unfold banner. cbn. flatten.
  match goal with
  | |- context [fetch_or_clone ?u ?n ?p ?o ?hh] =>
      destruct (@fetch_or_clone_present u n p o hh Hthere) as (rc & out & Hf)
  end.
  rewrite Hf. exists rc, out. cbn. flatten.
  match goal with
  | |- context [pin_version ?v ?n ?p ?hh] =>
      destruct (pin_version v n p hh) as [r post]
  end.
  exists r, post. split; reflexivity.
Qed.


(** What the fixed pieces of a trace show. *)
Lemma banner_shows (url version : json) (repo_name : string) (i total : nat) :
  let es := banner url version repo_name i total in
  checkout_attempts es = [] /\ commands es = []
  /\ ~ In (EPrint "SUMMARY") es /\ Forall run_or_print es.
Proof.
  unfold banner, nl; cbn. repeat split; try (repeat constructor; fail).
  intuition discriminate.
Qed.

Lemma updated_shows (repo_name repo_path : string) (rc : Z) (out : string) :
  let es := updated repo_name repo_path rc out in
  checkout_attempts es = [] /\ commands es = [git_fetch_all]
  /\ ~ In (EPrint "SUMMARY") es.
Proof.
  unfold updated; destruct (rc =? 0)%Z; cbn; repeat split;
    intuition discriminate.
Qed.

Lemma cloned_shows (url : json) (repo_name repo_path output_dir : string)
  (rc : Z) (out : string) :
  let es := cloned url repo_name repo_path output_dir rc out in
  checkout_attempts es = [] /\ commands es = [git_clone (fmt url) repo_name]
  /\ ~ In (EPrint "SUMMARY") es
  /\ forall p, ~ In (EExists p true) es.
Proof.
  unfold cloned; destruct (rc =? 0)%Z; cbn; repeat split;
    intuition discriminate.
Qed.

Lemma tags_fetched_shows (version : json) (repo_name repo_path : string)
  (rc : Z) (out : string) :
  let es := tags_fetched version repo_name repo_path rc out in
  checkout_attempts es = [] /\ commands es = [git_fetch_tags]
  /\ ~ In (EPrint "SUMMARY") es /\ Forall run_or_print es.
Proof.
  unfold tags_fetched; destruct (rc =? 0)%Z; cbn; repeat split;
    try (repeat constructor; fail); intuition discriminate.
Qed.

Lemma in_commands (command cwd : string) (echo : bool) (rc : Z) (out : string)
  (es : trace) :
  In (ERun command cwd echo rc out) es -> In command (commands es).
Proof.
  induction es as [|e es IH]; [intros []|].
  intros [-> | Hin]; [left; reflexivity|].
  destruct e; cbn; auto.
Qed.

Lemma run_or_print_no_exists (es : trace) (path : string) (b : bool) :
  Forall run_or_print es -> ~ In (EExists path b) es.
Proof.
  intros Hall Hin. rewrite Forall_forall in Hall. exact (Hall _ Hin).
Qed.

(** Everything [pin_version] does, read off its trace. *)
Lemma pin_version_facts (version : json) (repo_name repo_path : string)
  (h : trace) (r : outcome bool) (post : trace) :
  pin_version version repo_name repo_path h = (r, post) ->
  exists rc out es_co tail,
    post = tags_fetched version repo_name repo_path rc out ++ es_co ++ tail
    /\ checkout_version version repo_name repo_path
         (h ++ tags_fetched version repo_name repo_path rc out) = (r, es_co)
    /\ r = Ok (some_success (checkout_attempts post))
    /\ attempts_from (variants (fmt version)) (checkout_attempts post)
    /\ checkout_attempts post = checkout_attempts es_co
    /\ commands post
       = git_fetch_tags
           :: List.map (fun a => git_checkout (fst a)) (checkout_attempts post)
           ++ commands tail
    /\ (forall c, In c (commands tail) -> c = git_describe \/ c = git_rev_parse)
    /\ Forall run_or_print post
    /\ ~ In (EPrint "SUMMARY") post
    /\ ((some_success (checkout_attempts post) = true
         /\ exists report,
              verification_report repo_name repo_path report
              /\ tail = report
                   ++ [EPrint ("✅ Package " ++ repo_name
                               ++ " completed successfully!")])
        \/ (some_success (checkout_attempts post) = false /\ tail = [])).
Proof.
  intros Hpin.
  destruct (pin_version_cases version repo_name repo_path h)
    as (rc & out & b & es_co & tail & Hco & Hpin' & Htail).
  rewrite Hpin in Hpin'.
  assert (Hr : r = Ok b) by congruence.
  assert (Hp : post = tags_fetched version repo_name repo_path rc out
                        ++ es_co ++ tail) by congruence.
  subst r post. clear Hpin Hpin'.
  destruct (checkout_version_attempts version repo_name repo_path
              (h ++ tags_fetched version repo_name repo_path rc out))
    as (b' & es' & Hco' & Hfrom & Hb & Hcmds & Hsum & Hkinds).
  assert (Eb : b = b') by congruence.
  assert (Ee : es_co = es') by congruence.
  subst b es_co. clear Hco. rename b' into b, es' into es_co, Hco' into Hco.
  destruct (tags_fetched_shows version repo_name repo_path rc out)
    as (Ta & Tc & Ts & Tk).
  assert (Htl : checkout_attempts tail = []
                /\ ~ In (EPrint "SUMMARY") tail
                /\ Forall run_or_print tail
                /\ (forall c, In c (commands tail) ->
                              c = git_describe \/ c = git_rev_parse)).
  { destruct Htail as [[_ (report & Hrep & ->)] | [_ ->]].
    - destruct (verification_report_quiet Hrep) as (Ra & Rs & Rk & Rc).
      rewrite checkout_attempts_app, commands_app, Ra.
      repeat split.
      + rewrite in_app_iff. cbn. intuition discriminate.
      + apply Forall_app. split; [exact Rk | repeat constructor].
      + cbn. rewrite app_nil_r. exact Rc.
    - cbn. repeat split; [tauto | constructor | intros c []]. }
  destruct Htl as (La & Ls & Lk & Lc).
  assert (Hatt : checkout_attempts
                   (tags_fetched version repo_name repo_path rc out
                    ++ es_co ++ tail) = checkout_attempts es_co).
  { rewrite !checkout_attempts_app, Ta, La, app_nil_r. reflexivity. }
  exists rc, out, es_co, tail. rewrite Hatt.
  repeat split; try assumption.
  - congruence.
  - rewrite !commands_app, Tc, Hcmds. reflexivity.
  - rewrite !Forall_app. repeat split; assumption.
  - rewrite !in_app_iff. tauto.
  - rewrite <- Hb. destruct Htail as [[-> Hrep] | [-> ->]]; [left | right];
      (split; [reflexivity | assumption || reflexivity]).
Qed.

End Phases.

(* ================================================================= *)
(** ** Version resolution *)

Section Resolution.
Context {env : Env}.

Lemma attempts_from_first (label : string) (attempts : list (string * Z)) :
  attempts_from (variants label) attempts ->
  exists rc rest, attempts = (label, rc) :: rest.
Proof.
  unfold variants. intros H. inversion H; subst; eauto.
Qed.

Lemma not_clone_checkout (ref : string) :
  Text.startswith (git_checkout ref) "git clone " = false.
Proof. reflexivity. Qed.



Lemma prelude_shows (url version : json) (output_dir repo_name : string)
  (i total : nat) :
  let pre := EMkdir output_dir :: banner url version repo_name i total in
  checkout_attempts pre = [] /\ commands pre = []
  /\ forall p b, ~ In (EExists p b) pre.
Proof.
  destruct (banner_shows url version repo_name i total) as (Ba & Bc & _ & Bk).
  cbn [checkout_attempts commands]. repeat split; try assumption.
  intros p b [H | H]; [discriminate H|].
  exact (run_or_print_no_exists _ _ Bk H).
Qed.


(** C6. When the working copy derived from the url is there at the
    moment [clone_and_checkout_package] looks for it, the script finds
    it there, and its commands are the two fetches, then the checkout
    attempts starting with the label itself, then the verification
    queries: no clone is among them. *)
Theorem C6_existing_copy_is_not_cloned (url version : json) (output_dir : string)
  (i total : nat) (h : trace) (repo_name : string) :
  let es := snd (clone_and_checkout_package url version output_dir i total h) in
  get_repo_name_from_url url = Ok repo_name ->
  copy_is_there url version output_dir repo_name i total h = true ->
  In (EExists (path_join output_dir repo_name) true) es
  /\ (exists queries,
        commands es
        = [git_fetch_all; git_fetch_tags]
          ++ List.map (fun a => git_checkout (fst a)) (checkout_attempts es)
          ++ queries
        /\ forall c, In c queries -> c = git_describe \/ c = git_rev_parse)
  /\ (exists rc rest, checkout_attempts es = (fmt version, rc) :: rest)
  /\ Forall (fun c => Text.startswith c "git clone " = false) (commands es).
Proof.
  intros es Hname Hthere. subst es.
  pose proof (@clone_and_checkout_package_present _ url version output_dir i total h
                  repo_name Hname Hthere) as H.
  cbv zeta in H. destruct H as (rc & out & r & post & Hpin & Heq).
  rewrite Heq; cbn [snd]; clear Heq.
  apply pin_version_facts in Hpin.
  destruct Hpin as (rc' & out' & es_co & tail & _ & _ & _ & Hfrom & _ & Hc
                    & Hq & _).
  destruct (prelude_shows url version output_dir repo_name i total)
    as (Pa & Pc & _).
  destruct (updated_shows repo_name (path_join output_dir repo_name) rc out)
    as (Ua & Uc & _).
  split.
  { apply in_or_app. right. apply in_or_app. left.
    unfold updated. left. reflexivity. }
  rewrite !checkout_attempts_app, !commands_app, Pa, Pc, Ua, Uc, Hc.
  cbn [app].
  split; [exists (commands tail); split; [reflexivity | exact Hq]|].
  split; [exact (attempts_from_first Hfrom)|].
  repeat (apply Forall_cons; [reflexivity|]).
  apply Forall_app. split.
  - apply Forall_forall. intros c Hc'. apply in_map_iff in Hc'.
    destruct Hc' as (a & <- & _). apply not_clone_checkout.
  - apply Forall_forall. intros c Hc'.
    destruct (Hq c Hc') as [-> | ->]; reflexivity.
Qed.





End Resolution.

(* ================================================================= *)
(** ** The batch: counters and exit status *)

Section Batch.
Context {env : Env}.

(** One call of [clone_and_checkout_package] ends with [True], with
    [False] or in the exception of a url that cannot be parsed, and
    prints no summary. *)
Lemma clone_and_checkout_package_ends (url version : json) (output_dir : string)
  (i total : nat) (h : trace) :
  exists r es,
    clone_and_checkout_package url version output_dir i total h = (r, es)
    /\ ~ In (EPrint "SUMMARY") es
    /\ (r = Ok true \/ r = Ok false \/ exists e, r = Raise e).
Proof.
  pose proof (clone_and_checkout_package_cases url version output_dir i total h)
    as H.
  cbv zeta in H.
  destruct H as [(e & _ & Heq)
                | (name & rc & out & _ &
                   [(r & post & Hpin & Heq)
                   | [(Hrc & Heq) | (r & post & Hpin & Heq)]])];
    rewrite Heq; do 2 eexists; (split; [reflexivity|]).
  - split; [|eauto]. intros [H | []]. discriminate H.
  - destruct (pin_version_facts _ _ _ _ Hpin)
      as (_ & _ & _ & _ & _ & _ & Hr & _ & _ & _ & _ & _ & Hs & _).
    destruct (banner_shows url version name i total) as (_ & _ & Bs & _).
    destruct (updated_shows name (path_join output_dir name) rc out)
      as (_ & _ & Us).
    split.
    + rewrite !in_app_iff. intros [[H | H] | H]; [discriminate H | tauto | tauto].
    + rewrite Hr. destruct (some_success _); auto.
  - destruct (banner_shows url version name i total) as (_ & _ & Bs & _).
    destruct (cloned_shows url name (path_join output_dir name) output_dir rc out)
      as (_ & _ & Cs & _).
    split; [|auto].
    rewrite !in_app_iff. intros [[H | H] | H]; [discriminate H | tauto | tauto].
  - destruct (pin_version_facts _ _ _ _ Hpin)
      as (_ & _ & _ & _ & _ & _ & Hr & _ & _ & _ & _ & _ & Hs & _).
    destruct (banner_shows url version name i total) as (_ & _ & Bs & _).
    destruct (cloned_shows url name (path_join output_dir name) output_dir 0 out)
      as (_ & _ & Cs & _).
    split.
    + rewrite !in_app_iff. intros [[H | H] | H]; [discriminate H | tauto | tauto].
    + rewrite Hr. destruct (some_success _); auto.
Qed.

(** The body of the loop adds one to exactly one counter, or ends in an
    exception; what it does is the same whatever the counters are. *)
Lemma process_package_step (i total : nat) (package : json) (h : trace) :
  exists d es,
    (forall s f,
       process_package i total package (s, f) h
       = (match d with
          | Ok (ds, df) => Ok (ds + s, df + f)%nat
          | Raise e => Raise e
          | SysExit c => SysExit c
          end, es))
    /\ ~ In (EPrint "SUMMARY") es
    /\ (d = Ok (1, 0)%nat \/ d = Ok (0, 1)%nat \/ exists e, d = Raise e).
Proof.
  unfold process_package. open_monad.
  destruct package; cbn;
    try (exists (Raise AttributeError), []; split; [reflexivity|];
         split; [tauto | eauto]).
  destruct (lookup "url" members) as [url|];
    destruct (lookup "versions" members) as [versions|]; cbn;
    try (destruct (truthy url); cbn);
    try (exists (Ok (0, 1)%nat); eexists; split; [reflexivity|]; split;
         [cbn; intuition discriminate | auto]; fail).
  destruct (truthy versions); cbn.
  2: exists (Ok (0, 1)%nat); eexists; split; [reflexivity|]; split;
    [cbn; intuition discriminate | auto].
  destruct (first_item versions) as [version_info | e | c] eqn:Hfirst; cbn.
  2: exists (Raise e), []; split; [reflexivity|]; split; [tauto | eauto].
  2: { exfalso. destruct versions as [| | | | [|] | [|] |]; discriminate Hfirst. }
  destruct (get version_info "version" JNull) as [version | e | c] eqn:Hget; cbn.
  2: exists (Raise e), []; split; [reflexivity|]; split; [tauto | eauto].
  2: { exfalso. unfold get in Hget. destruct version_info; try discriminate Hget.
       destruct (lookup _ _); discriminate Hget. }
  destruct (truthy version); cbn.
  2: exists (Ok (0, 1)%nat); eexists; split; [reflexivity|]; split;
    [cbn; intuition discriminate | auto].
  match goal with
  | |- context [clone_and_checkout_package ?u ?v ?o ?i ?t ?hh] =>
      destruct (clone_and_checkout_package_ends u v o i t hh)
        as (r & es & Heq & Hs & Hr)
  end.
  rewrite Heq.
  destruct Hr as [-> | [-> | [e ->]]]; cbn.
  - exists (Ok (1, 0)%nat); eexists; split; [reflexivity|].
    rewrite app_nil_r. auto.
  - exists (Ok (0, 1)%nat); eexists; split; [reflexivity|].
    rewrite app_nil_r. auto.
  - exists (Raise e); eexists; split; [reflexivity|]. eauto.
Qed.

Lemma process_packages_cons (i total : nat) (package : json) (rest : list json)
  (counters : nat * nat) (h : trace) :
  process_packages i total (package :: rest) counters h
  = match process_package i total package counters h with
    | (Ok counters', es) =>
        let '(r, es') := process_packages (S i) total rest counters' (h ++ es) in
        (r, es ++ es')
    | (Raise e, es) => (Raise e, es)
    | (SysExit c, es) => (SysExit c, es)
    end.
Proof. reflexivity. Qed.

(** The loop: it prints no summary, and when it comes to its end the
    two counters have grown by the number of entries between them. *)
Lemma process_packages_counts (total : nat) (items : list json) :
  forall (i s f : nat) (h : trace),
  exists r es,
    process_packages i total items (s, f) h = (r, es)
    /\ ~ In (EPrint "SUMMARY") es
    /\ ((exists e, r = Raise e)
        \/ exists s' f',
             r = Ok (s', f')
             /\ (s' + f' = s + f + List.length items)%nat
             /\ (f <= f')%nat).
Proof.
  induction items as [|package rest IH]; intros i s f h.
  - exists (Ok (s, f)), []. split; [reflexivity|]. split; [tauto|].
    right. exists s, f. cbn. repeat split; lia.
  - rewrite process_packages_cons.
    destruct (process_package_step i total package h)
      as (d & es1 & Hstep & Hs1 & Hd).
    rewrite Hstep.
    destruct Hd as [-> | [-> | [e ->]]].
    + destruct (IH (S i) (1 + s)%nat (0 + f)%nat (h ++ es1))
        as (r & es2 & Heq & Hs2 & Hr).
      rewrite Heq. exists r, (es1 ++ es2). split; [reflexivity|].
      split; [rewrite in_app_iff; tauto|].
      destruct Hr as [Hr | (s' & f' & -> & Hsum & Hle)]; [left; exact Hr|].
      right. exists s', f'. cbn [List.length]. repeat split; lia.
    + destruct (IH (S i) (0 + s)%nat (1 + f)%nat (h ++ es1))
        as (r & es2 & Heq & Hs2 & Hr).
      rewrite Heq. exists r, (es1 ++ es2). split; [reflexivity|].
      split; [rewrite in_app_iff; tauto|].
      destruct Hr as [Hr | (s' & f' & -> & Hsum & Hle)]; [left; exact Hr|].
      right. exists s', f'. cbn [List.length]. repeat split; lia.
    + exists (Raise e), es1. split; [reflexivity|]. split; [exact Hs1|].
      left. eauto.
Qed.

(** Every entry succeeded exactly when the loop comes to its end with
    the failure counter where it was. *)
Lemma all_succeed_iff (total : nat) (items : list json) :
  forall (i s f : nat) (h : trace),
  all_succeed i total items h
  <-> exists s' es, process_packages i total items (s, f) h = (Ok (s', f), es).
Proof.
  induction items as [|package rest IH]; intros i s f h.
  - cbn. split; [intros _; exists s, []; reflexivity | tauto].
  - cbn [all_succeed]. rewrite process_packages_cons.
    destruct (process_package_step i total package h)
      as (d & es1 & Hstep & _ & Hd).
    rewrite (Hstep s f), (Hstep 0%nat 0%nat).
    destruct Hd as [-> | [-> | [e ->]]]; cbn [Nat.add].
    + split.
      * intros (es & Heq & Hall).
        assert (es = es1) by congruence. subst es.
        apply (IH (S i) (S s) f) in Hall. destruct Hall as (s' & es2 & Hloop).
        rewrite Hloop. exists s', (es1 ++ es2). reflexivity.
      * intros (s' & es & Heq).
        exists es1. split; [reflexivity|].
        apply (IH (S i) (S s) f).
        destruct (process_packages (S i) total rest (S s, f) (h ++ es1))
          as [r es2].
        exists s', es2. congruence.
    + split.
      * intros (es & Heq & _). discriminate Heq.
      * intros (s' & es & Heq). exfalso.
        destruct (process_packages_counts total rest (S i) s (S f) (h ++ es1))
          as (r & es2 & Hloop & _ & Hr).
        rewrite Hloop in Heq.
        destruct Hr as [(e & ->) | (s2 & f2 & -> & _ & Hle)];
          [discriminate Heq|].
        assert (f2 = f) by congruence. lia.
    + split.
      * intros (es & Heq & _). discriminate Heq.
      * intros (s' & es & Heq). discriminate Heq.
Qed.

Lemma summary_runs (total successful failed : nat) (h : trace) :
  summary total successful failed h
  = (if (0 <? failed)%nat then SysExit 1 else Ok tt,
     summary_lines total successful failed).
Proof.
  unfold summary, summary_lines. open_monad.
  destruct failed; reflexivity.
Qed.

Lemma process_package_not_object (i total : nat) (package : json)
  (counters : nat * nat) (h : trace) :
  (forall members, package <> JObj members) ->
  process_package i total package counters h = (Raise AttributeError, []).
Proof.
  intros Hno. unfold process_package. destruct counters as [s f].
  destruct package; try reflexivity. destruct (Hno members eq_refl).
Qed.

(** The five ways [main] can go. *)
Lemma main_runs (h : trace) :
  let r := fst (main h) in
  let es := snd (main h) in
  (manifest_missing h /\ r = SysExit 1 /\ ~ In (EPrint "SUMMARY") es)
  \/ (manifest_unreadable h /\ r = SysExit 1 /\ ~ In (EPrint "SUMMARY") es)
  \/ (packages_empty h /\ r = SysExit 1 /\ ~ In (EPrint "SUMMARY") es)
  \/ ((exists e, r = Raise e)
      /\ ~ In (EPrint "SUMMARY") es
      /\ ~ manifest_missing h /\ ~ manifest_unreadable h /\ ~ packages_empty h
      /\ forall data items,
           manifest_lists h data items ->
           exists e es_loop,
             process_packages 1 (List.length items) items (0, 0)%nat
               (loop_start h data (List.length items)) = (Raise e, es_loop))
  \/ (exists data items s f es_loop,
        manifest_lists h data items
        /\ process_packages 1 (List.length items) items (0, 0)%nat
             (loop_start h data (List.length items)) = (Ok (s, f), es_loop)
        /\ r = (if (0 <? f)%nat then SysExit 1 else Ok tt)
        /\ es = [EExists "collection.json" true;
                 ELoad "collection.json" (Loaded data);
                 EPrint ("Found " ++ Text.of_nat (List.length items)
                         ++ " packages in collection.json");
                 EPrint "Starting download process...";
                 EPrint rule]
                ++ es_loop
                ++ summary_lines (List.length items) s f).
Proof.
  unfold manifest_missing, manifest_unreadable, packages_empty, manifest_lists.
  unfold main. open_monad. cbn.
  destruct (path_exists h "collection.json") eqn:Hexists; cbn.
  2: { left. repeat split. cbn. intuition discriminate. }
  right.
  destruct (load_json (h ++ [EExists "collection.json" true]) "collection.json")
    as [data | message | message] eqn:Hload; cbn.
  2, 3: left; split; [split; [reflexivity | exists message; auto]|];
    split; [reflexivity | cbn; intuition discriminate].
  right.
  destruct (get data "packages" (JArr [])) as [packages | e | c] eqn:Hget; cbn.
  3: { exfalso. unfold get in Hget. destruct data; try discriminate Hget.
       destruct (lookup _ _); discriminate Hget. }
  2: { right. left. split; [eauto|]. split; [cbn; intuition discriminate|].
       split; [congruence|].
       split; [intros (_ & m & [H | H]); congruence|].
       split; [intros (_ & d & p & H1 & H2 & _); congruence|].
       intros d items (_ & H1 & H2 & _). congruence. }
  destruct (truthy packages) eqn:Htruthy; cbn.
  2: { left. split; [split; [reflexivity | exists data, packages; auto]|].
       split; [reflexivity | cbn; intuition discriminate]. }
  right.
  assert (Hnot : ~ False /\ ~ (true = true /\ exists m : string,
                   Loaded data = DecodeError m \/ Loaded data = ReadError m)
                 /\ ~ (true = true /\ exists d p,
                         Loaded data = Loaded d
                         /\ get d "packages" (JArr []) = Ok p
                         /\ truthy p = false)).
  { split; [tauto|]. split.
    - intros (_ & m & [H | H]); discriminate H.
    - intros (_ & d & p & Hd & H & Hp).
      assert (d = data) by congruence. subst d. congruence. }
  destruct Hnot as (_ & Hunread & Hempty).
  destruct packages as [| b | n | x | s | items | members]; cbn.
  1: discriminate Htruthy.
  1-3: left; split; [eauto|]; split; [cbn; intuition discriminate|];
    split; [congruence|]; split; [exact Hunread|]; split; [exact Hempty|];
    intros d items (_ & H1 & H2 & _); congruence.
  - (* a string: its characters are not objects *)
    left. destruct s as [|a s]; [discriminate Htruthy|].
    cbn [list_ascii_of_string List.map]. rewrite process_packages_cons.
    rewrite process_package_not_object by (intros m; discriminate).
    cbn [fst snd app].
    split; [eauto|]. split; [cbn; intuition discriminate|].
    split; [congruence|]. split; [exact Hunread|]. split; [exact Hempty|].
    intros d items (_ & H1 & H2 & _). congruence.
  - (* a list *)
    flatten.
    match goal with
    | |- context [process_packages 1 ?n items (0, 0)%nat ?hh] =>
        destruct (process_packages_counts n items 1 0 0 hh)
          as (r & es_loop & Hloop & Hs & Hr)
    end.
    rewrite Hloop.
    destruct Hr as [(e & ->) | (s' & f' & -> & _)]; cbn.
    + left. split; [eauto|].
      split; [intros Hin; cbn in Hin; rewrite ?app_nil_r in Hin;
              intuition discriminate|].
      split; [congruence|]. split; [exact Hunread|]. split; [exact Hempty|].
      intros d items' (_ & H1 & H2 & _).
      assert (d = data) by congruence. assert (items' = items) by congruence.
      subst. exists e, es_loop. exact Hloop.
    + right. exists data, items, s', f', es_loop.
      split; [split; [reflexivity|]; split; [reflexivity|];
              split; [exact Hget|]; intros ->; discriminate Htruthy|].
      split; [exact Hloop|].
      rewrite summary_runs. cbn. split; reflexivity.
  - (* a dict: its keys are not objects *)
    left. destruct members as [|[k v] members]; [discriminate Htruthy|].
    cbn [List.map fst]. rewrite process_packages_cons.
    rewrite process_package_not_object by (intros m; discriminate).
    cbn [fst snd app].
    split; [eauto|]. split; [cbn; intuition discriminate|].
    split; [congruence|]. split; [exact Hunread|]. split; [exact Hempty|].
    intros d items (_ & H1 & H2 & _). congruence.
Qed.

(** C3. When [main] gets as far as the summary, the manifest holds a
    non-empty list of packages, the loop has come to its end, and the
    two counters the summary prints add up to the number of entries:
    every turn of the loop that comes to its end adds one to exactly one
    of them. *)
Theorem C3_counters_add_up (h : trace) :
  let es := snd (main h) in
  In (EPrint "SUMMARY") es ->
  (exists data items successful failed es_loop,
     manifest_lists h data items
     /\ process_packages 1 (List.length items) items (0, 0)%nat
          (loop_start h data (List.length items))
        = (Ok (successful, failed), es_loop)
     /\ List.length items = (successful + failed)%nat
     /\ In (EPrint ("Total packages: " ++ Text.of_nat (List.length items))) es
     /\ In (EPrint ("Successful: " ++ Text.of_nat successful)) es
     /\ In (EPrint ("Failed: " ++ Text.of_nat failed)) es)
  /\ (forall i total package s f h' s' f' es',
        process_package i total package (s, f) h' = (Ok (s', f'), es') ->
        (s' = S s /\ f' = f) \/ (s' = s /\ f' = S f)).
Proof.
  intros es Hsum. subst es. split.
  - destruct (main_runs h)
      as [(_ & _ & Hno) | [(_ & _ & Hno) | [(_ & _ & Hno) | [(_ & Hno & _)
          | (data & items & s & f & es_loop & Hm & Hloop & _ & Hes)]]]];
      try (destruct (Hno Hsum)).
    exists data, items, s, f, es_loop.
    split; [exact Hm|]. split; [exact Hloop|].
    destruct (process_packages_counts (List.length items) items 1 0 0
                (loop_start h data (List.length items)))
      as (r & es' & Hloop' & _ & Hr).
    rewrite Hloop in Hloop'.
    destruct Hr as [(e & ->) | (s' & f' & -> & Hadd & _)];
      [discriminate Hloop'|].
    assert (s' = s) by congruence. assert (f' = f) by congruence. subst s' f'.
    split; [lia|].
    rewrite Hes, !in_app_iff. unfold summary_lines.
    repeat split; right; right; cbn; auto 10.
  - intros i total package s f h' s' f' es' Hstep.
    destruct (process_package_step i total package h')
      as (d & es1 & Heq & _ & Hd).
    rewrite Heq in Hstep.
    destruct Hd as [-> | [-> | [e ->]]]; [left | right | discriminate Hstep];
      cbn in Hstep; split; congruence.
Qed.

(** C4, as the code has it. The exit status is zero exactly when every
    package entry succeeded. It is not zero exactly when the manifest is
    missing, when it cannot be read or decoded, when its [packages] is
    missing or empty, when at least one entry was counted failed, or
    when an exception that nothing catches ended the run (an entry that
    is not an object, a url that [urlparse] rejects). *)
Theorem C4_exit_status (h : trace) :
  let r := fst (main h) in
  (exit_status r = 0%Z
   <-> exists data items,
         manifest_lists h data items
         /\ all_succeed 1 (List.length items) items
              (loop_start h data (List.length items)))
  /\ (exit_status r <> 0%Z
      <-> manifest_missing h \/ manifest_unreadable h \/ packages_empty h
          \/ counted_failed h \/ exists e, r = Raise e)
  /\ (exit_status r = 0%Z \/ exit_status r = 1%Z).
Proof.
  intros r. subst r.
  assert (Hone : forall data items data' items',
            manifest_lists h data items -> manifest_lists h data' items' ->
            data' = data /\ items' = items).
  { intros data items data' items' (_ & H1 & H2 & _) (_ & H1' & H2' & _).
    assert (data' = data) by congruence. subst data'.
    split; [reflexivity | congruence]. }
  assert (Hlists : forall data items,
            manifest_lists h data items ->
            ~ manifest_missing h /\ ~ manifest_unreadable h
            /\ ~ packages_empty h).
  { intros data items (He & Hl & Hg & Hn).
    unfold manifest_missing, manifest_unreadable, packages_empty.
    repeat split.
    - congruence.
    - intros (_ & m & [H | H]); congruence.
    - intros (_ & d & p & Hd & Hp & Ht).
      assert (d = data) by congruence. subst d.
      assert (p = JArr items) by congruence. subst p.
      destruct items; [congruence | discriminate Ht]. }
  destruct (main_runs h)
    as [(Hc & -> & _) | [(Hc & -> & _) | [(Hc & -> & _)
        | [((e & ->) & _ & Hn1 & Hn2 & Hn3 & Hraise)
          | (data & items & s & f & es_loop & Hm & Hloop & -> & _)]]]];
    cbn [exit_status].
  1-3: split; [split; [discriminate|];
               intros (data & items & Hm & _);
               destruct (Hlists _ _ Hm) as (H1 & H2 & H3); tauto|];
       split; [split; [tauto | discriminate] | right; reflexivity].
  - split; [split; [discriminate|]|].
    + intros (data & items & Hm & Hall).
      destruct (Hraise _ _ Hm) as (e' & es_loop & Hloop).
      apply (all_succeed_iff _ _ 1 0 0) in Hall.
      destruct Hall as (s' & es' & Hall). congruence.
    + split; [split; [eauto 6 | discriminate] | right; reflexivity].
  - destruct (Hlists _ _ Hm) as (H1 & H2 & H3).
    destruct f as [|f]; cbn [Nat.ltb Nat.leb exit_status].
    + split; [split; [intros _ | reflexivity]|].
      * exists data, items. split; [exact Hm|].
        apply (all_succeed_iff _ _ 1 0 0). eauto.
      * split; [|left; reflexivity].
        split; [intros H; destruct (H eq_refl)|].
        intros [H | [H | [H | [H | (e & H)]]]]; try tauto; try discriminate H.
        destruct H as (data' & items' & s' & f' & es' & Hm' & Hloop' & Hf).
        destruct (Hone _ _ _ _ Hm Hm') as (-> & ->).
        assert (f' = 0%nat) by congruence. lia.
    + split; [split; [discriminate|]|].
      * intros (data' & items' & Hm' & Hall).
        destruct (Hone _ _ _ _ Hm Hm') as (-> & ->).
        apply (all_succeed_iff _ _ 1 0 0) in Hall.
        destruct Hall as (s' & es' & Hall). congruence.
      * split; [|right; reflexivity].
        split; [intros _ | discriminate].
        right. right. right. left.
        exists data, items, s, (S f), es_loop.
        split; [exact Hm|]. split; [exact Hloop | lia].
Qed.

(** C5, as the code has it. A package entry that is an object
    without a url (or with an empty one), without a versions list (or
    with an empty one), or whose first version descriptor is an object
    without a version (or with an empty one) is counted failed: the
    whole turn of the loop is one printed warning (no directory is made,
    nothing is looked up, no command is run) and the loop goes on with
    the next entry. *)
Theorem C5_incomplete_entry_is_counted_failed (i total : nat)
  (members : list (string * json)) (rest : list json) (s f : nat) (h : trace) :
  truthy (field members "url" JNull) = false
  \/ truthy (field members "versions" (JArr [])) = false
  \/ (exists descriptor more,
        field members "versions" (JArr []) = JArr (JObj descriptor :: more)
        /\ truthy (field descriptor "version" JNull) = false) ->
  exists line,
    process_package i total (JObj members) (s, f) h
    = (Ok (s, S f), [EPrint line])
    /\ commands [EPrint line] = []
    /\ process_packages i total (JObj members :: rest) (s, f) h
       = (let '(r, es) :=
            process_packages (S i) total rest (s, S f) (h ++ [EPrint line]) in
          (r, EPrint line :: es)).
Proof.
  intros Hlack.
  assert (Hstep : exists line,
            process_package i total (JObj members) (s, f) h
            = (Ok (s, S f), [EPrint line])).
  { unfold process_package. open_monad. unfold field in Hlack. cbn.
    destruct (lookup "url" members) as [url|];
      destruct (lookup "versions" members) as [versions|]; cbn;
      try (destruct (truthy url) eqn:Hurl; cbn);
      try (eexists; reflexivity).
    destruct (truthy versions) eqn:Hversions; cbn;
      [|eexists; reflexivity].
    destruct Hlack as [H | [H | (descriptor & more & -> & Hd)]];
      try discriminate H.
    cbn.
    destruct (lookup "version" descriptor) as [version|]; cbn;
      [rewrite Hd; cbn|]; eexists; reflexivity. }
  destruct Hstep as (line & Hstep). exists line.
  split; [exact Hstep|]. split; [reflexivity|].
  rewrite process_packages_cons, Hstep.
  destruct (process_packages (S i) total rest (s, S f) (h ++ [EPrint line]));
    reflexivity.
Qed.

End Batch.

(* ================================================================= *)
(** ** The name of the working copy *)

Section RepoName.
Context {env : Env}.

Lemma append_assoc (a b c : string) : ((a ++ b) ++ c = a ++ (b ++ c))%string.
Proof. induction a as [|x a IH]; cbn; [reflexivity | rewrite IH; reflexivity]. Qed.

Lemma take_drop (n : nat) (s : string) : (Text.take n s ++ Text.drop n s)%string = s.
Proof.
  revert s. induction n as [|n IH]; intros [|a s]; cbn; try reflexivity.
  rewrite IH. reflexivity.
Qed.

(** [split] never gives the empty list: the branch of
    [get_repo_name_from_url] for it is dead. *)
Lemma split_nonempty (c : ascii) (s : string) : Text.split c s <> [].
Proof.
  induction s as [|a s IH]; cbn; [discriminate|].
  destruct (Ascii.eqb a c); [discriminate|].
  destruct (Text.split c s); [congruence | discriminate].
Qed.

Lemma split_pieces (c : ascii) (s : string) :
  Forall (fun piece => Text.contains c piece = false) (Text.split c s).
Proof.
  induction s as [|a s IH]; cbn; [repeat constructor|].
  destruct (Ascii.eqb a c) eqn:Hac; [constructor; [reflexivity | exact IH]|].
  pose proof (split_nonempty c s) as Hne.
  destruct (Text.split c s) as [|piece pieces]; [congruence|].
  inversion IH as [|? ? Hp Hps]; subst.
  constructor; [cbn; rewrite Hac, Hp; reflexivity | exact Hps].
Qed.

Lemma join_split (c : ascii) (s : string) : join c (Text.split c s) = s.
Proof.
  induction s as [|a s IH]; cbn; [reflexivity|].
  destruct (Ascii.eqb_spec a c) as [-> | Hac].
  - pose proof (split_nonempty c s) as Hne.
    destruct (Text.split c s) as [|piece pieces]; [congruence|].
    cbn [join]. rewrite <- IH. reflexivity.
  - pose proof (split_nonempty c s) as Hne.
    destruct (Text.split c s) as [|piece pieces]; [congruence|].
    rewrite <- IH. destruct pieces; reflexivity.
Qed.

Lemma join_last (c : ascii) (pieces : list string) :
  pieces <> [] ->
  exists front,
    join c pieces = (front ++ List.last pieces "")%string
    /\ (front = "" \/ exists front', front = (front' ++ String c "")%string).
Proof.
  induction pieces as [|piece rest IH]; [congruence|]. intros _.
  destruct rest as [|next rest].
  - exists "". split; [reflexivity | left; reflexivity].
  - destruct IH as (front & Hjoin & Hfront); [discriminate|].
    exists (piece ++ String c front)%string.
    change (List.last (piece :: next :: rest) "")
      with (List.last (next :: rest) "").
    change (join c (piece :: next :: rest))
      with (piece ++ String c (join c (next :: rest)))%string.
    rewrite Hjoin. split.
    + rewrite append_assoc. reflexivity.
    + right. destruct Hfront as [-> | (front' & ->)].
      * exists piece. reflexivity.
      * exists (piece ++ String c front')%string.
        rewrite append_assoc. reflexivity.
Qed.

(** The last piece of [split] is the final segment. *)
Lemma last_split_is_final_segment (s : string) :
  final_segment s (List.last (Text.split "/" s) "").
Proof.
  pose proof (split_nonempty "/" s) as Hne.
  pose proof (split_pieces "/" s) as Hpieces.
  split.
  - rewrite Forall_forall in Hpieces. apply Hpieces.
    destruct (exists_last Hne) as (front & piece & ->).
    rewrite last_last. apply in_or_app. right. left. reflexivity.
  - destruct (join_last "/" Hne) as (front & Hjoin & Hfront).
    rewrite join_split in Hjoin. exists front. split; assumption.
Qed.

Lemma endswith_splits (s suffix : string) :
  Text.endswith s suffix = true ->
  s = (Text.take (String.length s - String.length suffix) s ++ suffix)%string.
Proof.
  unfold Text.endswith. intros H. apply andb_prop in H. destruct H as (_ & H).
  apply String.eqb_eq in H.
  rewrite <- H at 2. symmetry. apply take_drop.
Qed.

Lemma without_dot_git_spec (url : string) :
  Text.endswith url ".git" = true ->
  url = (without_dot_git url ++ ".git")%string.
Proof.
  intros H. unfold without_dot_git. rewrite H.
  pose proof (endswith_splits _ _ H) as Hsplit.
  unfold Text.endswith in H. apply andb_prop in H. destruct H as (Hlen & _).
  apply Nat.leb_le in Hlen. cbn [String.length] in Hlen, Hsplit.
  unfold Text.slice_to. cbn [Z.ltb Z.compare].
  replace (Z.to_nat (Z.of_nat (String.length url) + -4))
    with (String.length url - 4)%nat by lia.
  exact Hsplit.
Qed.

(** C10, as the code has it. The [unknown] branch of
    [get_repo_name_from_url] is dead: [split] gives a non-empty list
    for every text.  For a url that [urlparse] accepts (after one
    trailing [.git] is taken off) the function returns the final
    segment of the path, leading and trailing '/' set aside, which is
    empty when nothing is left of the path; for a url that [urlparse]
    rejects it raises the exception of [urlparse]. *)
Theorem C10_repo_name_is_final_segment (url : string) :
  (forall s, Text.split "/" s <> [])
  /\ (Text.endswith url ".git" = true /\ url = (without_dot_git url ++ ".git")%string
      \/ Text.endswith url ".git" = false /\ url = without_dot_git url)
  /\ match urlparse_path (without_dot_git url) with
     | Ok path =>
         let stripped := Text.strip (Ascii.eqb "/") path in
         exists repo_name,
           get_repo_name_from_url (JStr url) = Ok repo_name
           /\ repo_name = List.last (Text.split "/" stripped) ""
           /\ final_segment stripped repo_name
           /\ (stripped = "" -> repo_name = "")
     | Raise e => get_repo_name_from_url (JStr url) = Raise e
     | SysExit _ => False
     end.
Proof.
  split; [intros s; apply split_nonempty|]. split.
  - destruct (Text.endswith url ".git") eqn:Hgit.
    + left. split; [reflexivity | exact (without_dot_git_spec _ Hgit)].
    + right. split; [reflexivity|]. unfold without_dot_git. rewrite Hgit.
      reflexivity.
  - unfold get_repo_name_from_url. fold (without_dot_git url).
    destruct (urlparse_path (without_dot_git url)) as [path | e | c] eqn:Hparse;
      cbn [obind].
    + cbv zeta.
      pose proof (split_nonempty "/" (Text.strip (Ascii.eqb "/") path)) as Hne.
      destruct (Text.split "/" (Text.strip (Ascii.eqb "/") path))
        as [|piece pieces] eqn:Hsplit; [congruence|].
      eexists. split; [reflexivity|]. split; [reflexivity|]. split.
      * rewrite <- Hsplit. apply last_split_is_final_segment.
      * intros Hempty. rewrite Hempty in Hsplit. cbn in Hsplit.
        injection Hsplit as <- <-. reflexivity.
    + reflexivity.
    + destruct (get_repo_name_from_url_ends (JStr url))
        as [(name & H) | (e & H)];
        unfold get_repo_name_from_url in H; fold (without_dot_git url) in H;
        rewrite Hparse in H; discriminate H.
Qed.

End RepoName.

(* ================================================================= *)
(** ** The scenarios of the specification *)

(** Find an event that is in a trace that has been computed. *)
Ltac found := repeat (first [left; reflexivity | right]).

(** C2, as the code has it. For the manifest of [foo] and a registry
    with tag [v1.2.0] and without tag [1.2.0], where a checkout
    succeeds exactly when its reference names a tag: the attempts
    [1.2.0] and [tags/1.2.0] fail, the third attempt [v1.2.0] succeeds,
    [tags/v1.2.0] is never attempted, and the package is counted
    successful. This holds whether the working copy is there or is
    cloned, and whatever status the fetches and the verification
    queries end with. *)
Theorem C2_foo_is_pinned_by_third_attempt (copy_present : bool)
  (fetch_status describe_status rev_parse_status : Z) (h : trace) :
  let r := fst (@main (Scenario.foo_world copy_present fetch_status
                         (describe_status, "v1.2.0")
                         (rev_parse_status, "0123456789abcdef")) h) in
  let es := snd (@main (Scenario.foo_world copy_present fetch_status
                          (describe_status, "v1.2.0")
                          (rev_parse_status, "0123456789abcdef")) h) in
  checkout_attempts es = [("1.2.0", 1%Z); ("tags/1.2.0", 1%Z); ("v1.2.0", 0%Z)]
  /\ In (EPrint "Successful: 1") es
  /\ In (EPrint "Failed: 0") es
  /\ r = Ok tt
  /\ exit_status r = 0%Z.
Proof.
  destruct copy_present, fetch_status as [|p|p], describe_status as [|p'|p'],
    rev_parse_status as [|q|q]; vm_compute; repeat split; found.
Qed.

(** C2 as the specification states it fails on the code: the fourth
    attempt is not made, because the third one succeeds. *)
Lemma C2_counterexample :
  checkout_attempts
    (snd (@main (Scenario.foo_world false 0 (0%Z, "v1.2.0") (0%Z, "")) []))
  = [("1.2.0", 1%Z); ("tags/1.2.0", 1%Z); ("v1.2.0", 0%Z)]
  /\ ~ (exists rc1 rc2 rc3 : Z,
          rc1 <> 0%Z /\ rc2 <> 0%Z /\ rc3 <> 0%Z
          /\ checkout_attempts
               (snd (@main (Scenario.foo_world false 0 (0%Z, "v1.2.0")
                              (0%Z, "")) []))
             = [("1.2.0", rc1); ("tags/1.2.0", rc2); ("v1.2.0", rc3);
                ("tags/v1.2.0", 0%Z)]).
Proof.
  split; [vm_compute; reflexivity|].
  intros (rc1 & rc2 & rc3 & _ & _ & _ & H). vm_compute in H. discriminate H.
Qed.

(** C4 as the specification states it fails on the code: the manifest
    is there, decodes, lists one package of the documented shape, no
    entry is counted failed, and the exit status is 1, because
    [urlparse] raises [ValueError] on the url and nothing catches it. *)
Lemma C4_counterexample :
  exit_status (fst (@main Scenario.bracket_world [])) = 1%Z
  /\ fst (@main Scenario.bracket_world []) = Raise ValueError
  /\ ~ (@manifest_missing Scenario.bracket_world []
        \/ @manifest_unreadable Scenario.bracket_world []
        \/ @packages_empty Scenario.bracket_world []
        \/ @counted_failed Scenario.bracket_world []).
Proof.
  split; [vm_compute; reflexivity|]. split; [vm_compute; reflexivity|].
  intros [H | [(_ & m & [H | H]) | [(_ & d & p & Hd & Hp & Ht)
          | (d & items & s & f & es & (_ & Hd & Hp & _) & Hloop & _)]]].
  - discriminate H.
  - discriminate H.
  - discriminate H.
  - cbn in Hd. injection Hd as <-. cbn in Hp. injection Hp as <-.
    discriminate Ht.
  - cbn in Hd. injection Hd as <-. cbn in Hp. injection Hp as <-.
    vm_compute in Hloop. discriminate Hloop.
Qed.

(** C5 as the specification states it fails on the code: the first
    version descriptor of the entry is [null], so it holds no version
    value, and the entry is not counted failed. Line 207 calls [.get]
    on [None], the [AttributeError] is caught nowhere, and the run ends
    there: no summary, and the complete entry after it is never
    reached (no command is run). *)
Lemma C5_counterexample :
  incomplete Situation.null_descriptor
  /\ @process_package (Situation.offline Situation.null_descriptor_manifest)
       1 2 Situation.null_descriptor (0, 0)%nat []
     = (Raise AttributeError, [])
  /\ fst (@main (Situation.offline Situation.null_descriptor_manifest) [])
     = Raise AttributeError
  /\ commands
       (snd (@main (Situation.offline Situation.null_descriptor_manifest) []))
     = []
  /\ ~ (forall package : json,
          incomplete package ->
          exists line,
            @process_package
              (Situation.offline Situation.null_descriptor_manifest)
              1 2 package (0, 0)%nat []
            = (Ok (0, 1)%nat, [EPrint line])).
Proof.
  assert (Hlack : incomplete Situation.null_descriptor).
  { right; right. exists JNull, []. split; [reflexivity | exact I]. }
  split; [exact Hlack|].
  split; [vm_compute; reflexivity|].
  split; [vm_compute; reflexivity|].
  split; [vm_compute; reflexivity|].
  intros H. destruct (H Situation.null_descriptor Hlack) as (line & Hstep).
  vm_compute in Hstep. discriminate Hstep.
Qed.

(** C10 as the specification states it fails on the code: the function
    is not total, [urlparse] raises [ValueError] on a url with an
    unbalanced bracket where the host stands. *)
Lemma C10_counterexample :
  @get_repo_name_from_url Scenario.bracket_world (JStr "http://[")
  = Raise ValueError
  /\ ~ (forall url : string,
          exists repo_name,
            @get_repo_name_from_url Scenario.bracket_world (JStr url)
            = Ok repo_name).
Proof.
  split; [vm_compute; reflexivity|].
  intros H. destruct (H "http://[") as (repo_name & Hname).
  vm_compute in Hname. discriminate Hname.
Qed.

(** The counters of the run of [foo]: one entry, one success. *)
Lemma C3_witness :
  exists data items successful failed,
    @manifest_lists (Scenario.foo_world false 0 (0%Z, "v1.2.0") (0%Z, "")) []
      data items
    /\ List.length items = (successful + failed)%nat
    /\ (successful, failed) = (1, 0)%nat.
Proof.
  destruct (@C3_counters_add_up
              (Scenario.foo_world false 0 (0%Z, "v1.2.0") (0%Z, "")) [])
    as ((data & items & s & f & es_loop & Hm & Hloop & Hlen & _) & _).
  - vm_compute. found.
  - exists data, items, s, f. split; [exact Hm|]. split; [exact Hlen|].
    destruct Hm as (_ & Hd & Hp & _).
    cbn in Hd. injection Hd as <-. cbn in Hp. injection Hp as <-.
    vm_compute in Hloop. congruence.
Defined.

(** An entry without a url is one warning and one failure. *)
Lemma C5_witness :
  exists line,
    @process_package Scenario.stale_world 1 1
      (JObj Scenario.nameless_package) (0, 0)%nat []
    = (Ok (0, 1)%nat, [EPrint line]).
Proof.
  destruct (@C5_incomplete_entry_is_counted_failed Scenario.stale_world 1 1
              Scenario.nameless_package [] 0 0 [])
    as (line & Hstep & _).
  - left. reflexivity.
  - exists line. exact Hstep.
Defined.


(** The working copy of [foo] is there: no command is a clone. *)
Lemma C6_witness :
  Forall (fun c => Text.startswith c "git clone " = false)
    (commands
       (snd (@clone_and_checkout_package Scenario.stale_world
               Scenario.foo_url Scenario.foo_version "packages" 1 1 []))).
Proof.
  apply (@C6_existing_copy_is_not_cloned Scenario.stale_world
           Scenario.foo_url Scenario.foo_version "packages" 1 1 [] "foo");
    reflexivity.
Defined.




(* ================================================================= *)
(** ** [run_command] *)

Section RunCommand.
Context {env : Env}.


End RunCommand.

(* ================================================================= *)
(** ** Every event of [clone_and_checkout_package] *)

Section Everywhere.
Context {env : Env}.

(** What holds of every piece of a trace of
    [clone_and_checkout_package] holds of every event of it. *)
Lemma clone_and_checkout_package_all (P : event -> Prop) (url version : json)
  (output_dir : string) (i total : nat) (h : trace) :
  P (EMkdir output_dir) ->
  (forall repo_name,
     get_repo_name_from_url url = Ok repo_name ->
     let repo_path := path_join output_dir repo_name in
     Forall P (banner url version repo_name i total)
     /\ (forall rc out, Forall P (updated repo_name repo_path rc out))
     /\ (forall rc out,
           Forall P (cloned url repo_name repo_path output_dir rc out))
     /\ (forall rc out,
           Forall P (tags_fetched version repo_name repo_path rc out))
     /\ (forall h',
           Forall P (snd (checkout_version version repo_name repo_path h')))
     /\ (forall report,
           verification_report repo_name repo_path report -> Forall P report)
     /\ P (EPrint ("✅ Package " ++ repo_name ++ " completed successfully!"))) ->
  Forall P (snd (clone_and_checkout_package url version output_dir i total h)).
Proof.
  intros Hmkdir Hpieces.
  assert (Hpin : forall name r post h0,
            get_repo_name_from_url url = Ok name ->
            pin_version version name (path_join output_dir name) h0 = (r, post) ->
            Forall P post).
  { intros name r post h0 Hname Hpost.
    destruct (Hpieces name Hname) as (_ & _ & _ & Ht & Hc & Hv & Hdone).
    destruct (pin_version_facts _ _ _ _ Hpost)
      as (rc & out & es_co & tail & -> & Hco & _ & _ & _ & _ & _ & _ & _ & Htail).
    rewrite !Forall_app. split; [apply Ht|]. split.
    - specialize (Hc (h0 ++ tags_fetched version name
                               (path_join output_dir name) rc out)).
      rewrite Hco in Hc. exact Hc.
    - destruct Htail as [(_ & report & Hrep & ->) | (_ & ->)];
        [|constructor].
      rewrite Forall_app. split; [exact (Hv _ Hrep)|].
      constructor; [exact Hdone | constructor]. }
  pose proof (clone_and_checkout_package_cases url version output_dir i total h)
    as H.
  cbv zeta in H.
  destruct H as [(e & _ & Heq)
                | (name & rc & out & Hname &
                   [(r & post & Hpost & Heq)
                   | [(Hrc & Heq) | (r & post & Hpost & Heq)]])];
    rewrite Heq; cbn [snd]; clear Heq.
  - constructor; [exact Hmkdir | constructor].
  - destruct (Hpieces name Hname) as (Hb & Hu & _).
    constructor; [exact Hmkdir|]. rewrite !Forall_app.
    split; [exact Hb|]. split; [apply Hu | exact (Hpin _ _ _ _ Hname Hpost)].
  - destruct (Hpieces name Hname) as (Hb & _ & Hc & _).
    constructor; [exact Hmkdir|]. rewrite !Forall_app.
    split; [exact Hb | apply Hc].
  - destruct (Hpieces name Hname) as (Hb & _ & Hc & _).
    constructor; [exact Hmkdir|]. rewrite !Forall_app.
    split; [exact Hb|]. split; [apply Hc | exact (Hpin _ _ _ _ Hname Hpost)].
Qed.

Lemma checkout_version_placed (version : json) (repo_name repo_path : string)
  (output_dir : string) (h : trace) :
  Forall (placed output_dir repo_path)
    (snd (checkout_version version repo_name repo_path h))
  /\ Forall no_handler_line
       (snd (checkout_version version repo_name repo_path h)).
Proof.
  unfold checkout_version. run; split; repeat constructor.
Qed.

Lemma verification_report_placed (repo_name repo_path output_dir : string)
  (report : trace) :
  verification_report repo_name repo_path report ->
  Forall (placed output_dir repo_path) report
  /\ Forall no_handler_line report.
Proof.
  intros [out | rc out out' Hrc | rc out rc' out' Hrc Hrc'];
    split; repeat constructor.
Qed.


(** X3. The clone runs in the output directory, and every other
    command in the working copy, the path [output_dir/repo_name] with
    the name the url gives. The two verification queries run
    silently; every other command has its output echoed. *)
Theorem commands_run_in_their_place (url version : json)
  (output_dir : string) (i total : nat) (h : trace) (repo_name : string) :
  get_repo_name_from_url url = Ok repo_name ->
  Forall (placed output_dir (path_join output_dir repo_name))
    (snd (clone_and_checkout_package url version output_dir i total h)).
Proof.
  intros Hname.
  apply clone_and_checkout_package_all; [exact I|].
  intros name Hname' repo_path.
  assert (name = repo_name) by congruence. subst name repo_path.
  split; [unfold banner; repeat constructor|].
  split; [intros rc out; unfold updated; destruct (rc =? 0)%Z;
          repeat constructor|].
  split; [intros rc out; unfold cloned; destruct (rc =? 0)%Z;
          repeat constructor|].
  split; [intros rc out; unfold tags_fetched; destruct (rc =? 0)%Z;
          repeat constructor|].
  split; [intros h'; apply checkout_version_placed|].
  split; [intros report Hrep;
          apply (verification_report_placed output_dir Hrep)|].
  exact I.
Qed.

End Everywhere.

(** The run of [foo] on a working copy that is there: every command
    runs in [packages/foo]. *)
Lemma commands_run_in_their_place_witness :
  Forall (placed "packages" "packages/foo")
    (snd (@clone_and_checkout_package Scenario.stale_world
            Scenario.foo_url Scenario.foo_version "packages" 1 1 [])).
Proof.
  apply (@commands_run_in_their_place Scenario.stale_world
           Scenario.foo_url Scenario.foo_version "packages" 1 1 [] "foo").
  reflexivity.
Defined.

(* ================================================================= *)
(** ** The working copy: its name, its place, a clone that fails *)

Section WorkingCopy.
Context {env : Env}.



(** X5. A url that cannot be turned into a name (it is not a text, or
    [urlparse] rejects it) ends the call in the exception, after the
    output directory has been made and before anything is printed or
    run. *)
Theorem unusable_url_leaves_the_output_directory (url version : json)
  (output_dir : string) (i total : nat) (h : trace) (e : exn) :
  get_repo_name_from_url url = Raise e ->
  clone_and_checkout_package url version output_dir i total h
  = (Raise e, [EMkdir output_dir]).
Proof.
  intros Hname.
  destruct (clone_and_checkout_package_cases url version output_dir i total h)
    as [(e' & Hname' & Heq) | (name & _ & _ & Hname' & _)];
    [|congruence].
  rewrite Heq. congruence.
Qed.

(** X6. A clone that fails ends the entry there: the result is
    [False], the clone is the only command of the entry (no fetch, no
    checkout, no query), it ran in the output directory, and the last
    thing printed is the error line. *)
Theorem failed_clone_ends_the_entry (url version : json)
  (output_dir : string) (i total : nat) (h : trace) (command cwd : string)
  (echo : bool) (rc : Z) (out : string) :
  let r := fst (clone_and_checkout_package url version output_dir i total h) in
  let es := snd (clone_and_checkout_package url version output_dir i total h) in
  In (ERun command cwd echo rc out) es ->
  Text.startswith command "git clone " = true ->
  rc <> 0%Z ->
  r = Ok false
  /\ commands es = [command]
  /\ exists repo_name before,
       get_repo_name_from_url url = Ok repo_name
       /\ command = git_clone (fmt url) repo_name
       /\ es = before
               ++ [ERun command output_dir true rc out;
                   EPrint ("❌ Error: Failed to clone " ++ repo_name)].
Proof.
  intros r es Hin Hclone Hrc. subst r es.
  pose proof (clone_and_checkout_package_cases url version output_dir i total h)
    as H.
  cbv zeta in H.
  assert (Hpost : forall name r post h0,
            pin_version version name (path_join output_dir name) h0 = (r, post) ->
            ~ In command (commands post)).
  { intros name r post h0 Hpin Hc.
    destruct (pin_version_facts _ _ _ _ Hpin)
      as (_ & _ & _ & tail & _ & _ & _ & _ & _ & Hcmds & Hq & _).
    rewrite Hcmds in Hc. destruct Hc as [<- | Hc]; [discriminate Hclone|].
    apply in_app_or in Hc. destruct Hc as [Hc | Hc].
    - apply in_map_iff in Hc. destruct Hc as (a & <- & _).
      rewrite not_clone_checkout in Hclone. discriminate Hclone.
    - destruct (Hq _ Hc) as [-> | ->]; discriminate Hclone. }
  destruct H as [(e & _ & Heq)
                | (name & rc0 & out0 & Hname &
                   [(r & post & Hpin & Heq)
                   | [(Hrc0 & Heq) | (r & post & Hpin & Heq)]])];
    rewrite Heq in *; cbn [fst snd] in *; clear Heq.
  - destruct Hin as [Hin | []]. discriminate Hin.
  - exfalso.
    destruct (prelude_shows url version output_dir name i total) as (_ & Pc & _).
    destruct (updated_shows name (path_join output_dir name) rc0 out0)
      as (_ & Uc & _).
    apply in_commands in Hin. rewrite !commands_app, Pc, Uc in Hin.
    destruct Hin as [<- | Hin]; [discriminate Hclone|].
    exact (Hpost _ _ _ _ Hpin Hin).
  - destruct (prelude_shows url version output_dir name i total) as (_ & Pc & _).
    destruct (cloned_shows url name (path_join output_dir name) output_dir rc0 out0)
      as (_ & Cc & _).
    assert (Hhere : In (ERun command cwd echo rc out)
                       (cloned url name (path_join output_dir name) output_dir
                          rc0 out0)).
    { apply in_app_or in Hin. destruct Hin as [Hin | Hin]; [|exact Hin].
      apply in_commands in Hin. rewrite Pc in Hin. destruct Hin. }
    unfold cloned in Hhere.
    destruct Hhere as [Hd | [Hd | [Hd | [Hd | []]]]]; try discriminate Hd.
    injection Hd as <- <- <- <- <-.
    split; [reflexivity|]. split; [rewrite commands_app, Pc, Cc; reflexivity|].
    exists name,
      (EMkdir output_dir :: banner url version name i total
       ++ [EExists (path_join output_dir name) false;
           EPrint ("📥 Cloning " ++ name ++ "...")]).
    split; [exact Hname|]. split; [reflexivity|].
    unfold cloned. rewrite (eqb_zero_false Hrc0).
    cbn [app]. rewrite <- !app_assoc. reflexivity.
  - exfalso.
    destruct (prelude_shows url version output_dir name i total) as (_ & Pc & _).
    assert (Hhere : In (ERun command cwd echo rc out)
                       (cloned url name (path_join output_dir name) output_dir
                          0 out0)).
    { rewrite !in_app_iff in Hin. destruct Hin as [Hin | [Hin | Hin]].
      - apply in_commands in Hin. rewrite Pc in Hin. destruct Hin.
      - exact Hin.
      - apply in_commands in Hin. destruct (Hpost _ _ _ _ Hpin Hin). }
    unfold cloned in Hhere.
    destruct Hhere as [Hd | [Hd | [Hd | [Hd | []]]]]; try discriminate Hd.
    injection Hd as _ _ _ Hzero _. congruence.
Qed.

End WorkingCopy.


Lemma unusable_url_leaves_the_output_directory_witness :
  @clone_and_checkout_package Situation.bare (JStr "http://[")
    Scenario.foo_version "packages" 1 1 []
  = (Raise ValueError, [EMkdir "packages"]).
Proof.
  apply (@unusable_url_leaves_the_output_directory Situation.bare).
  reflexivity.
Defined.

Lemma failed_clone_ends_the_entry_witness :
  fst (@clone_and_checkout_package Situation.bare Scenario.foo_url
         Scenario.foo_version "packages" 1 1 [])
  = Ok false.
Proof.
  apply (@failed_clone_ends_the_entry Situation.bare Scenario.foo_url
           Scenario.foo_version "packages" 1 1 []
           "git clone --progress https://example.com/org/foo.git foo"
           "packages" true 128%Z "").
  - vm_compute. found.
  - reflexivity.
  - discriminate.
Defined.

(* ================================================================= *)
(** ** Names, version descriptors, counters *)

Section Entries.
Context {env : Env}.

Lemma length_append (a b : string) :
  String.length (a ++ b) = (String.length a + String.length b)%nat.
Proof. induction a as [|x a IH]; cbn; [reflexivity | rewrite IH; reflexivity]. Qed.

Lemma take_append (a b : string) : Text.take (String.length a) (a ++ b) = a.
Proof. induction a as [|x a IH]; cbn; [destruct b|rewrite IH]; reflexivity. Qed.

Lemma drop_append (a b : string) : Text.drop (String.length a) (a ++ b) = b.
Proof. induction a as [|x a IH]; cbn; [destruct b; reflexivity | exact IH]. Qed.

Lemma without_dot_git_append (u : string) : without_dot_git (u ++ ".git") = u.
Proof.
  unfold without_dot_git, Text.endswith, Text.slice_to.
  rewrite length_append. cbn [String.length].
  replace (String.length u + 4 - 4)%nat with (String.length u) by lia.
  rewrite drop_append.
  replace (4 <=? String.length u + 4)%nat with true
    by (symmetry; apply Nat.leb_le; lia).
  cbn [andb String.eqb Ascii.eqb Bool.eqb Z.ltb Z.compare].
  replace (Z.to_nat (Z.of_nat (String.length u + 4) + -4))
    with (String.length u) by lia.
  apply take_append.
Qed.

(** X7. A url with and without the [.git] suffix names the same
    working copy: one trailing [.git] is taken off before the url is
    parsed, and only one. *)
Theorem dot_git_suffix_does_not_change_the_name (u : string) :
  get_repo_name_from_url (JStr (u ++ ".git"))
  = obind (urlparse_path u) (fun path =>
      Ok (List.last (Text.split "/" (Text.strip (Ascii.eqb "/") path)) ""))
  /\ (Text.endswith u ".git" = false ->
      get_repo_name_from_url (JStr (u ++ ".git"))
      = get_repo_name_from_url (JStr u)).
Proof.
  assert (Hall : forall v,
            get_repo_name_from_url (JStr v)
            = obind (urlparse_path (without_dot_git v)) (fun path =>
                Ok (List.last
                      (Text.split "/" (Text.strip (Ascii.eqb "/") path)) ""))).
  { intros v. unfold get_repo_name_from_url. fold (without_dot_git v).
    destruct (urlparse_path (without_dot_git v)) as [path | e | c];
      cbn [obind]; try reflexivity.
    pose proof (split_nonempty "/" (Text.strip (Ascii.eqb "/") path)) as Hne.
    destruct (Text.split "/" (Text.strip (Ascii.eqb "/") path));
      [congruence | reflexivity]. }
  split.
  - rewrite Hall, without_dot_git_append. reflexivity.
  - intros Hno. rewrite !Hall, without_dot_git_append.
    unfold without_dot_git. rewrite Hno. reflexivity.
Qed.

(** X8. Of a package entry only the url and the first version
    descriptor are read: every later descriptor and every other key of
    the entry is without effect. *)
Theorem only_the_first_descriptor_is_read (i total : nat)
  (members members' : list (string * json)) (descriptor : json)
  (more more' : list json) (counters : nat * nat) (h : trace) :
  lookup "url" members = lookup "url" members' ->
  lookup "versions" members = Some (JArr (descriptor :: more)) ->
  lookup "versions" members' = Some (JArr (descriptor :: more')) ->
  process_package i total (JObj members) counters h
  = process_package i total (JObj members') counters h.
Proof.
  intros Hurl Hv Hv'. unfold process_package, get.
  rewrite Hurl, Hv, Hv'. reflexivity.
Qed.

(** X9. What a turn of the loop does is the same whatever the counters
    are when it starts: the same events, and one added to the same
    counter (or the same exception). An entry is not treated
    differently for the failures before it. *)
Theorem a_turn_does_not_look_at_the_counters (i total : nat) (package : json)
  (h : trace) (s f s' f' : nat) :
  snd (process_package i total package (s, f) h)
  = snd (process_package i total package (s', f') h)
  /\ (fst (process_package i total package (s, f) h) = Ok (S s, f)
      <-> fst (process_package i total package (s', f') h) = Ok (S s', f'))
  /\ (fst (process_package i total package (s, f) h) = Ok (s, S f)
      <-> fst (process_package i total package (s', f') h) = Ok (s', S f'))
  /\ (forall e,
        fst (process_package i total package (s, f) h) = Raise e
        <-> fst (process_package i total package (s', f') h) = Raise e).
Proof.
  destruct (process_package_step i total package h)
    as (d & es & Hstep & _ & Hd).
  rewrite (Hstep s f), (Hstep s' f'). cbn [fst snd].
  split; [reflexivity|].
  destruct Hd as [-> | [-> | [e ->]]]; cbn [Nat.add].
  - repeat split; try (intros; reflexivity); intros H; try discriminate H;
      injection H; intros; lia.
  - repeat split; try (intros; reflexivity); intros H; try discriminate H;
      injection H; intros; lia.
  - repeat split; intros H; try discriminate H; exact H.
Qed.

End Entries.

Lemma only_the_first_descriptor_is_read_witness :
  @process_package Scenario.stale_world 1 1 (JObj Situation.two_versions)
    (0, 0)%nat []
  = @process_package Scenario.stale_world 1 1 (JObj Situation.one_version)
      (0, 0)%nat [].
Proof.
  apply (@only_the_first_descriptor_is_read Scenario.stale_world 1 1
           Situation.two_versions Situation.one_version
           (JObj [("version", JStr "1.2.0")])
           [JObj [("version", JStr "2.0.0")]] []);
    reflexivity.
Defined.

(* ================================================================= *)
(** ** How [main] starts, and what the verification reports *)

Section Startup.
Context {env : Env}.

(** X10. Without the manifest [main] prints one line and exits with
    status 1; the file is not opened. *)
Theorem missing_manifest_is_not_opened (h : trace) :
  path_exists h "collection.json" = false ->
  main h
  = (SysExit 1,
     [EExists "collection.json" false;
      EPrint "Error: collection.json not found in current directory"]).
Proof.
  intros Hno. unfold main. open_monad. cbn. rewrite Hno. reflexivity.
Qed.

(** X11. A manifest that cannot be decoded, or not be read at all,
    ends the run with status 1 after one line that carries the message
    of the exception: [Error: Invalid JSON ...] for a decoding error,
    [Error reading ...] for any other. *)
Theorem unreadable_manifest_ends_the_run (h : trace) (message : string) :
  path_exists h "collection.json" = true ->
  (load_json (h ++ [EExists "collection.json" true]) "collection.json"
   = DecodeError message ->
   main h
   = (SysExit 1,
      [EExists "collection.json" true;
       ELoad "collection.json" (DecodeError message);
       EPrint ("Error: Invalid JSON in collection.json: " ++ message)]))
  /\ (load_json (h ++ [EExists "collection.json" true]) "collection.json"
      = ReadError message ->
      main h
      = (SysExit 1,
         [EExists "collection.json" true;
          ELoad "collection.json" (ReadError message);
          EPrint ("Error reading collection.json: " ++ message)])).
Proof.
  intros Hyes. split; intros Hload; unfold main; open_monad; cbn;
    rewrite Hyes; cbn; rewrite Hload; reflexivity.
Qed.

(** X12. A manifest whose [packages] is missing, empty, or any other
    value Python takes for false ends the run with status 1 after one
    line; no entry is looked at. *)
Theorem manifest_without_packages_ends_the_run (h : trace)
  (data packages : json) :
  path_exists h "collection.json" = true ->
  load_json (h ++ [EExists "collection.json" true]) "collection.json"
  = Loaded data ->
  get data "packages" (JArr []) = Ok packages ->
  truthy packages = false ->
  main h
  = (SysExit 1,
     [EExists "collection.json" true;
      ELoad "collection.json" (Loaded data);
      EPrint "Error: No packages found in collection.json"]).
Proof.
  intros Hyes Hload Hget Hfalse. unfold main. open_monad. cbn.
  rewrite Hyes; cbn. rewrite Hload; cbn. rewrite Hget; cbn.
  rewrite Hfalse. reflexivity.
Qed.

(** X13. A manifest that decodes but is not an object with a list
    under [packages] (the document is a list, [packages] is a text, an
    object, a number) ends the run in an exception nothing catches,
    [AttributeError] or [TypeError]: status 1, no summary, no directory
    made and no command run. *)
Theorem ill_typed_manifest_ends_in_an_exception (h : trace) (data : json) :
  path_exists h "collection.json" = true ->
  load_json (h ++ [EExists "collection.json" true]) "collection.json"
  = Loaded data ->
  (forall items, get data "packages" (JArr []) <> Ok (JArr items)) ->
  (forall packages,
     get data "packages" (JArr []) = Ok packages -> truthy packages = true) ->
  (fst (main h) = Raise AttributeError \/ fst (main h) = Raise TypeError)
  /\ exit_status (fst (main h)) = 1%Z
  /\ untouched (snd (main h))
  /\ ~ In (EPrint "SUMMARY") (snd (main h)).
Proof.
  intros Hyes Hload Hnolist Htruthy.
  assert (Hgoal : (fst (main h) = Raise AttributeError
                   \/ fst (main h) = Raise TypeError)
                  /\ untouched (snd (main h))
                  /\ ~ In (EPrint "SUMMARY") (snd (main h))).
  { unfold main, untouched. open_monad. cbn.
    rewrite Hyes; cbn. rewrite Hload; cbn.
    destruct (get data "packages" (JArr [])) as [packages | e | c] eqn:Hget;
      cbn.
    - rewrite (Htruthy packages eq_refl). cbn.
      specialize (Htruthy packages eq_refl).
      destruct packages as [| b | n | x | s | items | members]; cbn.
      + discriminate Htruthy.
      + repeat split; auto; cbn; intuition discriminate.
      + repeat split; auto; cbn; intuition discriminate.
      + repeat split; auto; cbn; intuition discriminate.
      + destruct s as [|a s]; [discriminate Htruthy|].
        cbn [list_ascii_of_string List.map]. rewrite process_packages_cons.
        rewrite process_package_not_object by (intros m; discriminate).
        cbn. repeat split; auto; intuition discriminate.
      + destruct (Hnolist items eq_refl).
      + destruct members as [|[k v] members]; [discriminate Htruthy|].
        cbn [List.map fst]. rewrite process_packages_cons.
        rewrite process_package_not_object by (intros m; discriminate).
        cbn. repeat split; auto; intuition discriminate.
    - assert (He : e = AttributeError).
      { unfold get in Hget.
        destruct data as [| b | n | x | s | items | members];
          try (destruct (lookup "packages" members));
          congruence. }
      subst e. repeat split; auto; cbn; intuition discriminate.
    - exfalso. unfold get in Hget.
      destruct data as [| b | n | x | s | items | members];
        try (destruct (lookup "packages" members));
        discriminate Hget. }
  destruct Hgoal as (Hr & Hu & Hs).
  repeat split; try assumption; try (exact (proj1 Hu)); try (exact (proj2 Hu)).
  destruct Hr as [-> | ->]; reflexivity.
Qed.

Lemma take_length (n : nat) (s : string) :
  (String.length (Text.take n s) <= n)%nat
  /\ (Text.drop n s = "" \/ String.length (Text.take n s) = n).
Proof.
  revert s. induction n as [|n IH]; intros [|a s]; cbn.
  - split; [lia | left; reflexivity].
  - split; [lia | right; reflexivity].
  - split; [lia | left; reflexivity].
  - destruct (IH s) as (Hle & Hor). split; [lia|].
    destruct Hor as [Hor | Hor]; [left; exact Hor | right; now rewrite Hor].
Qed.

(** X14. When the exact tag is not known and the commit is, the
    commit is reported by its first eight characters: the stripped
    answer of [git rev-parse HEAD] itself when it is shorter, never
    more than eight. *)
Theorem commit_is_reported_by_eight_characters (repo_name repo_path : string)
  (h : trace) (rc : Z) (out out' : string) :
  shell h proxy_env git_describe repo_path = (rc, out) ->
  rc <> 0%Z ->
  shell (h ++ [ERun git_describe repo_path false rc out]) proxy_env
    git_rev_parse repo_path = (0%Z, out') ->
  exists label rest,
    verify_checkout repo_name repo_path h
    = (Ok tt,
       [ERun git_describe repo_path false rc out;
        ERun git_rev_parse repo_path false 0 out';
        EPrint ("✅ Successfully checked out commit: " ++ label)])
    /\ Text.strip Text.is_space out' = (label ++ rest)%string
    /\ (String.length label <= 8)%nat
    /\ (rest = "" \/ String.length label = 8%nat).
Proof.
  intros Hdescribe Hrc Hparse.
  exists (Text.take 8 (Text.strip Text.is_space out')),
         (Text.drop 8 (Text.strip Text.is_space out')).
  split.
  - unfold verify_checkout. open_monad. cbn.
    rewrite Hdescribe; cbn. rewrite (eqb_zero_false Hrc); cbn.
    rewrite Hparse; cbn. reflexivity.
  - split; [symmetry; apply take_drop|].
    destruct (take_length 8 (Text.strip Text.is_space out')) as (Hle & Hor).
    split; assumption.
Qed.

End Startup.

Lemma missing_manifest_is_not_opened_witness :
  fst (@main Situation.bare []) = SysExit 1.
Proof.
  rewrite (@missing_manifest_is_not_opened Situation.bare []);
    reflexivity.
Defined.

Lemma unreadable_manifest_ends_the_run_witness :
  fst (@main (Situation.offline Situation.truncated_manifest) []) = SysExit 1.
Proof.
  destruct (@unreadable_manifest_ends_the_run
              (Situation.offline Situation.truncated_manifest) []
              "Expecting value: line 1 column 1 (char 0)" eq_refl)
    as (Hdecode & _).
  rewrite (Hdecode eq_refl). reflexivity.
Defined.

Lemma manifest_without_packages_ends_the_run_witness :
  fst (@main (Situation.offline Situation.keyless_manifest) []) = SysExit 1.
Proof.
  rewrite (@manifest_without_packages_ends_the_run
             (Situation.offline Situation.keyless_manifest) []
             (JObj []) (JArr []));
    reflexivity.
Defined.

Lemma ill_typed_manifest_ends_in_an_exception_witness :
  exit_status (fst (@main (Situation.offline Situation.text_manifest) [])) = 1%Z.
Proof.
  apply (@ill_typed_manifest_ends_in_an_exception
           (Situation.offline Situation.text_manifest) []
           (JObj [("packages", JStr "foo")])).
  - reflexivity.
  - reflexivity.
  - intros items H. discriminate H.
  - intros packages H. cbn in H. injection H as <-. reflexivity.
Defined.

Lemma commit_is_reported_by_eight_characters_witness :
  exists label : string, (String.length label <= 8)%nat.
Proof.
  destruct (@commit_is_reported_by_eight_characters Situation.detached
              "foo" "packages/foo" [] 128%Z ""
              "0123456789abcdef0123456789abcdef01234567")
    as (label & rest & _ & _ & Hle & _).
  - reflexivity.
  - discriminate.
  - reflexivity.
  - exists label. exact Hle.
Defined.
